(** * Airspace vertex detection and pixel-to-geographic mapping

    A shallow embedding of the algorithmic core of
    [airspace_vertex_detector.py] (class [AirspaceVertexDetector]) and of
    [chart_preprocessing.py] (method [ChartPreprocessor.map_pixel_to_latlon]),
    followed by the exports and statistics of the detector, its
    constructor, [approximate_polygons] and [crop_info_boxes] of the
    preprocessor, and the callers [PolygonSuperimposer._load_and_detect],
    [create_individual_polygon_images] and [get_coordinates_from_image].

    Conventions.
    - Python [int] values are [Z] (coordinates, parameters) or [nat]
      (lengths, [enumerate] indices).
    - Python [float] values that the program only copies or compares with
      a constant (areas, perimeters) are the rationals [Q] they denote.  A
      centroid coordinate, the quotient of two integers, is the exact
      quotient in [Q]; the rounding of that one division is not modelled.
      Equalities in [Q] are stated with [==] (or [=] when a value is merely
      copied).
    - Where a result depends on how floats round, in the geographic
      mapping, floats are IEEE 754 binary64 numbers ([spec_float] with the
      operations of [SpecFloat]), and an integer that meets a float is
      converted as Python converts it.
    - Python [dict]s keyed by class name are [gmap string _]; a loop over
      [items()] is a [map_fold], and nothing proved depends on its order.
    - The [cv2] functions are an external library: they form the interface
      [OpenCV]; every general theorem holds for all implementations of it,
      except the one on repeated simplification, which is about the
      simplifier that the specification describes ([Reference]).  Likewise
      [np.mean] is the interface [NumPy].
    - Files are reached through a [file_system]; pictures and text files
      that are only written are left out, but for the side file of the
      mapping, whose writing can fail before the result is returned. *)

From Stdlib Require Import PrimFloat.
From Stdlib Require FloatOps SpecFloat.
From Stdlib Require Import ZArith QArith Qabs Qminmax List Lia Lqa.
From Stdlib Require Import DecimalString DecimalNat.
From stdpp Require Import gmap strings list fin_maps sorting.
Import ListNotations.

Local Open Scope Z_scope.
#[local] Set Warnings "-inexact-float".

(** ** Data model *)

(** A pixel position [(x, y)]. *)
Definition point : Type := Z * Z.

(** A contour as returned by [cv2.findContours]: an ordered, implicitly
    closed sequence of integer points. *)
Definition contour : Type := list point.

(** A colour bound such as [[0, 50, 50]]. *)
Definition hsv : Type := Z * Z * Z.

Inductive morph_op : Type := MORPH_CLOSE | MORPH_OPEN.

(** The [cv2] calls made by the detector.  [kernel] is always the 5x5
    elliptical structuring element, [findContours] is always called with
    [RETR_EXTERNAL] and [CHAIN_APPROX_SIMPLE], and [arcLength] and
    [approxPolyDP] always with [closed = True]. *)
Class OpenCV : Type := {
  Image : Type;
  Mask : Type;
  cvtColor_BGR2HSV : Image -> Image;
  inRange : Image -> hsv -> hsv -> Mask;
  morphologyEx : Mask -> morph_op -> Mask;
  findContours : Mask -> list contour;
  contourArea : contour -> Q;
  arcLength : contour -> Q;
  approxPolyDP : contour -> Q -> contour;
  boundingRect : contour -> Z * Z * Z * Z
}.

(** Exceptions.  [CvError] is [cv2.error] (for instance [cvtColor] on a
    missing image).  [OverflowError] is raised when an integer too large
    for a float meets a float, [OSError] when a file cannot be written.
    [InvalidBoundsError] is the condition named by the GeoMapper contract;
    no statement of the source raises it. *)
Inductive py_error : Type :=
  | CvError
  | ZeroDivisionError
  | OverflowError
  | OSError
  | InvalidBoundsError.

Inductive result (A : Type) : Type :=
  | Ok (a : A)
  | Raise (e : py_error).
Arguments Ok {A} a.
Arguments Raise {A} e.

Definition bind {A B} (r : result A) (k : A -> result B) : result B :=
  match r with
  | Ok a => k a
  | Raise e => Raise e
  end.

Notation "'let!' x ':=' r 'in' k" := (bind r (fun x => k))
  (at level 10, x name, r at level 200, k at level 200).

(** ** Python floats

    A Python [float] is an IEEE 754 binary64 number: a [spec_float] with
    the operations of [SpecFloat] at precision 53 and exponent bound 1024,
    which round to the nearest number, ties to even. *)
Definition float64 : Type := SpecFloat.spec_float.

Definition float_add : float64 -> float64 -> float64 :=
  SpecFloat.SFadd FloatOps.prec FloatOps.emax.
Definition float_sub : float64 -> float64 -> float64 :=
  SpecFloat.SFsub FloatOps.prec FloatOps.emax.
Definition float_mul : float64 -> float64 -> float64 :=
  SpecFloat.SFmul FloatOps.prec FloatOps.emax.
Definition float_div : float64 -> float64 -> float64 :=
  SpecFloat.SFdiv FloatOps.prec FloatOps.emax.

(** [a == b], [a < b] and [a <= b] on floats: false when an operand is
    NaN, and [0.0 == -0.0]. *)
Definition float_eqb : float64 -> float64 -> bool := SpecFloat.SFeqb.
Definition float_ltb : float64 -> float64 -> bool := SpecFloat.SFltb.
Definition float_leb : float64 -> float64 -> bool := SpecFloat.SFleb.

Definition is_nan (a : float64) : bool :=
  match a with
  | SpecFloat.S754_nan => true
  | _ => false
  end.

(** The float written as a decimal literal such as [45.2]: the binary64
    number nearest to it. *)
Definition literal (a : PrimFloat.float) : float64 := FloatOps.Prim2SF a.

(** The conversion of an [int] that meets a float in an arithmetic
    operation: the nearest float, or [OverflowError] beyond the range. *)
Definition float_of_int (n : Z) : result float64 :=
  match SpecFloat.binary_normalize FloatOps.prec FloatOps.emax n 0 false with
  | SpecFloat.S754_infinity _ => Raise OverflowError
  | a => Ok a
  end.

(** [a / n] for a float [a] and an integer [n]. *)
Definition float_truediv_int (a : float64) (n : Z) : result float64 :=
  let! b := float_of_int n in
  match b with
  | SpecFloat.S754_zero _ => Raise ZeroDivisionError
  | _ => Ok (float_div a b)
  end.

(** [n * a] for an integer [n] and a float [a]. *)
Definition int_mul_float (n : Z) (a : float64) : result float64 :=
  let! b := float_of_int n in
  Ok (float_mul b a).

(** The dictionary stored under ["bounding_box"]. *)
Record box : Type := {
  bb_x : Z;
  bb_y : Z;
  bb_width : Z;
  bb_height : Z
}.

(** The dictionary [polygon_data] built for every accepted contour. *)
Record polygon_data : Type := {
  polygon_id : nat;
  vertices : list (Z * Z);
  num_vertices : nat;
  area : Q;
  perimeter : Q;
  bounding_box : box;
  centroid : Q * Q
}.

(** ** Geometry helpers written in the source *)

(** Python's [sum] over a list of integers. *)
Definition py_sum (l : list Z) : Z := fold_left Z.add l 0.

(** [AirspaceVertexDetector._calculate_centroid]. *)
Definition _calculate_centroid (vertices : list (Z * Z)) : Q * Q :=
  match vertices with
  | [] => (0%Q, 0%Q)
  | _ =>
      let x_coords := map fst vertices in
      let y_coords := map snd vertices in
      let centroid_x :=
        (inject_Z (py_sum x_coords)
         / inject_Z (Z.of_nat (length x_coords)))%Q in
      let centroid_y :=
        (inject_Z (py_sum y_coords)
         / inject_Z (Z.of_nat (length y_coords)))%Q in
      (centroid_x, centroid_y)
  end.

(** [a > b] on floats. *)
Definition Qgtb (a b : Q) : bool :=
  match (a ?= b)%Q with
  | Gt => true
  | _ => false
  end.

(** [enumerate(l, start)] and [enumerate(l)]. *)
Fixpoint enumerate_from {A} (start : nat) (l : list A) : list (nat * A) :=
  match l with
  | [] => []
  | x :: l' => (start, x) :: enumerate_from (S start) l'
  end.

Definition enumerate {A} (l : list A) : list (nat * A) := enumerate_from 0 l.

(** ** The detector *)

Section Detector.
Context `{cv : OpenCV}.

(** The attributes of [AirspaceVertexDetector] that the core reads and
    writes.  [original_image] is [None] until an image is loaded. *)
Record detector : Type := {
  original_image : option Image;
  airspace_polygons : gmap string (list contour);
  vertex_data : gmap string (list polygon_data)
}.

Definition default_color_ranges : gmap string (hsv * hsv) :=
  list_to_map
    [ ("restricted_airspace"%string, ((0, 50, 50), (10, 255, 255)));
      ("controlled_airspace"%string, ((100, 50, 50), (130, 255, 255)));
      ("uncontrolled_airspace"%string, ((40, 50, 50), (80, 255, 255)));
      ("danger_areas"%string, ((20, 50, 50), (40, 255, 255)));
      ("prohibited_areas"%string, ((160, 50, 50), (180, 255, 255))) ].

Definition min_area : Q := 1000%Q.

(** The list comprehension
    [[c for c in contours if cv2.contourArea(c) > min_area]]. *)
Definition filter_contours (contours : list contour) : list contour :=
  List.filter (fun c => Qgtb (contourArea c) min_area) contours.

(** Body of the loop of [detect_airspace_areas] for one colour class:
    the value stored under the class name. *)
Definition detect_class (hsv_image : Image) (lower upper : hsv)
  : list contour :=
  let mask := inRange hsv_image lower upper in
  let mask := morphologyEx mask MORPH_CLOSE in
  let mask := morphologyEx mask MORPH_OPEN in
  let contours := findContours mask in
  let filtered_contours := filter_contours contours in
  match filtered_contours with
  | _ :: _ => filtered_contours
  | [] => []
  end.

(** [detect_airspace_areas(color_ranges)]. *)
Definition detect_airspace_areas
    (color_ranges : option (gmap string (hsv * hsv))) (self : detector)
  : result detector :=
  let color_ranges := default default_color_ranges color_ranges in
  match original_image self with
  | None => Raise CvError
  | Some image =>
      let hsv_image := cvtColor_BGR2HSV image in
      Ok {| original_image := original_image self;
            airspace_polygons :=
              map_fold
                (fun airspace_type '(lower, upper) acc =>
                   <[airspace_type := detect_class hsv_image lower upper]> acc)
                ∅ color_ranges;
            vertex_data := vertex_data self |}
  end.

(** The dictionary built for contour number [i] (0-based) once its
    approximation has passed the vertex test. *)
Definition make_polygon_data (i : nat) (contour approx_polygon : contour)
  : polygon_data :=
  let vertices := map (fun point => (fst point, snd point)) approx_polygon in
  let area := contourArea contour in
  let perimeter := arcLength contour in
  let '(rx, ry, rw, rh) := boundingRect contour in
  {| polygon_id := i + 1;
     vertices := vertices;
     num_vertices := length vertices;
     area := area;
     perimeter := perimeter;
     bounding_box :=
       {| bb_x := rx; bb_y := ry; bb_width := rw; bb_height := rh |};
     centroid := _calculate_centroid vertices |}.

(** One iteration of the inner loop of [extract_polygon_vertices]:
    [polygons] is the list accumulated so far. *)
Definition extract_step (epsilon_factor : Q) (min_vertices : Z)
    (polygons : list polygon_data) (ic : nat * contour)
  : list polygon_data :=
  let '(i, contour) := ic in
  let epsilon := (epsilon_factor * arcLength contour)%Q in
  let approx_polygon := approxPolyDP contour epsilon in
  if Z.of_nat (length approx_polygon) >=? min_vertices
  then polygons ++ [make_polygon_data i contour approx_polygon]
  else polygons.

(** What one iteration of the inner loop contributes: the record appended
    to [polygons], if any. *)
Definition accepted (epsilon_factor : Q) (min_vertices : Z)
    (ic : nat * contour) : option polygon_data :=
  let approx_polygon :=
    approxPolyDP ic.2 (epsilon_factor * arcLength ic.2)%Q in
  if Z.of_nat (length approx_polygon) >=? min_vertices
  then Some (make_polygon_data ic.1 ic.2 approx_polygon)
  else None.

(** The inner loop: [for i, contour in enumerate(contours)]. *)
Definition extract_polygons (epsilon_factor : Q) (min_vertices : Z)
    (contours : list contour) : list polygon_data :=
  fold_left (extract_step epsilon_factor min_vertices) (enumerate contours) [].

(** [extract_polygon_vertices(epsilon_factor, min_vertices)]. *)
Definition extract_polygon_vertices (epsilon_factor : Q) (min_vertices : Z)
    (self : detector) : detector :=
  {| original_image := original_image self;
     airspace_polygons := airspace_polygons self;
     vertex_data :=
       map_fold
         (fun airspace_type contours acc =>
            match contours with
            | [] => acc
            | _ =>
                <[airspace_type :=
                    extract_polygons epsilon_factor min_vertices contours]> acc
            end)
         ∅ (airspace_polygons self) |}.

End Detector.

Arguments detector {cv}.


(** ** The geographic mapping of [ChartPreprocessor] *)

(** The dictionary [chart_bounds] with its four keys, which hold floats
    as in the caller of the source. *)
Record chart_bounds : Type := {
  north : float64;
  south : float64;
  east : float64;
  west : float64
}.

(** What [map_pixel_to_latlon] uses of [self]:
    [self.original_image.shape[:2]], that is (height, width), and whether
    [coordinate_mapping.json] under [self.output_folder] can be opened and
    written. *)
Record ChartPreprocessor : Type := {
  shape : Z * Z;
  info_path_writable : bool
}.

(** [with open(info_path, 'w') as f: json.dump(mapping_info, f, indent=2)].
    Every value of [mapping_info] is a float, an integer or a list or
    dictionary of them, which [json.dump] accepts. *)
Definition dump_mapping_info (self : ChartPreprocessor) : result unit :=
  if info_path_writable self then Ok tt else Raise OSError.

(** [ChartPreprocessor.map_pixel_to_latlon]. *)
Definition map_pixel_to_latlon (self : ChartPreprocessor)
    (pixel_coords : list (Z * Z)) (bounds : chart_bounds)
  : result (list (float64 * float64)) :=
  let '(height, width) := shape self in
  let lat_range := float_sub (north bounds) (south bounds) in
  let lon_range := float_sub (east bounds) (west bounds) in
  let! lat_scale := float_truediv_int lat_range height in
  let! lon_scale := float_truediv_int lon_range width in
  let! latlon_coords :=
    fold_left
      (fun acc '(x, y) =>
         let! latlon_coords := acc in
         let! lat_offset := int_mul_float y lat_scale in
         let lat := float_sub (north bounds) lat_offset in
         let! lon_offset := int_mul_float x lon_scale in
         let lon := float_add (west bounds) lon_offset in
         Ok (latlon_coords ++ [(lat, lon)]))
      pixel_coords (Ok []) in
  let! _ := dump_mapping_info self in
  Ok latlon_coords.

(** The pair that the loop body of [map_pixel_to_latlon] computes from
    the floats [fx] and [fy] of a pixel and the floats [fh] and [fw] of
    the image height and width. *)
Definition latlon_of (bounds : chart_bounds) (fh fw : float64)
    (fxy : float64 * float64) : float64 * float64 :=
  (float_sub (north bounds)
     (float_mul fxy.2 (float_div (float_sub (north bounds) (south bounds)) fh)),
   float_add (west bounds)
     (float_mul fxy.1 (float_div (float_sub (east bounds) (west bounds)) fw))).

(** The floats of the coordinates of a list of pixels, converted in the
    order of the loop: pixel by pixel, [y] before [x]. *)
Fixpoint floats_of_pixels (pixel_coords : list (Z * Z))
  : result (list (float64 * float64)) :=
  match pixel_coords with
  | [] => Ok []
  | (x, y) :: rest =>
      let! fy := float_of_int y in
      let! fx := float_of_int x in
      let! frest := floats_of_pixels rest in
      Ok ((fx, fy) :: frest)
  end.

(** Two outcomes of the same kind: both results, or the same exception. *)
Definition same_outcome {A B} (r1 : result A) (r2 : result B) : Prop :=
  match r1, r2 with
  | Ok _, Ok _ => True
  | Raise e1, Raise e2 => e1 = e2
  | _, _ => False
  end.

(** ** Shoelace area *)

(** Twice the signed area of the closed polygon through [vs]: the sum of
    [x_i * y_(i+1) - x_(i+1) * y_i], the successor of the last vertex being
    the first one. *)
Definition shoelace_twice (vs : list (Z * Z)) : Z :=
  match vs with
  | [] => 0
  | v0 :: _ =>
      py_sum (map (fun '((x1, y1), (x2, y2)) => x1 * y2 - x2 * y1)
                  (combine vs (tl vs ++ [v0])))
  end.

(** Absolute value of the signed shoelace area. *)
Definition shoelace_area (vs : list (Z * Z)) : Q :=
  Qabs (inject_Z (shoelace_twice vs) / 2).

(** ** Centroids *)

(** The unweighted arithmetic mean of a list of integers. *)
Definition arithmetic_mean (l : list Z) : Q :=
  (fold_right (fun x acc => inject_Z x + acc) 0 l
   / inject_Z (Z.of_nat (length l)))%Q.

(** The area-weighted centroid of the closed polygon through [vs]:
    [Cx = sum (x_i + x_(i+1)) * (x_i * y_(i+1) - x_(i+1) * y_i) / (6 A)]
    and likewise for [Cy], [A] being the signed shoelace area. *)
Definition area_weighted_centroid (vs : list (Z * Z)) : Q * Q :=
  match vs with
  | [] => (0%Q, 0%Q)
  | v0 :: _ =>
      let edges := combine vs (tl vs ++ [v0]) in
      let sx :=
        py_sum (map (fun '((x1, y1), (x2, y2)) =>
                       (x1 + x2) * (x1 * y2 - x2 * y1)) edges) in
      let sy :=
        py_sum (map (fun '((x1, y1), (x2, y2)) =>
                       (y1 + y2) * (x1 * y2 - x2 * y1)) edges) in
      ((inject_Z sx / inject_Z (3 * shoelace_twice vs))%Q,
       (inject_Z sy / inject_Z (3 * shoelace_twice vs))%Q)
  end.

(** The formulas of the GeoMapper contract for one pixel, evaluated in
    floats as they are written: the product first, then the quotient. *)
Definition latitude_of (bounds : chart_bounds) (fh fy : float64) : float64 :=
  float_sub (north bounds)
    (float_div (float_mul fy (float_sub (north bounds) (south bounds))) fh).

Definition longitude_of (bounds : chart_bounds) (fw fx : float64) : float64 :=
  float_add (west bounds)
    (float_div (float_mul fx (float_sub (east bounds) (west bounds))) fw).

(** ** A reference implementation of the [cv2] interface

    Used for concrete scenarios, and for the property of the simplifier
    that the specification describes.  A raster is represented by what
    boundary tracing finds in it. *)

Module Reference.

(** Modelled from the spec: [cv2.arcLength] (closed), the sum of the
    Euclidean edge lengths of the closed contour; square roots are taken
    to six decimal places, rounded up, so that the rounded lengths still
    obey the triangle inequality. *)
Definition sqrt_approx (n : Z) : Q :=
  Qmake (Z.sqrt_up (n * 10 ^ 12)) 1000000.

Definition dist2 (a b : point) : Z :=
  (fst b - fst a) * (fst b - fst a) + (snd b - snd a) * (snd b - snd a).

Definition arc_length (c : contour) : Q :=
  match c with
  | [] => 0%Q
  | p0 :: _ =>
      Qred (fold_left Qplus
              (map (fun '(a, b) => sqrt_approx (dist2 a b))
                   (combine c (tl c ++ [p0])))
              0%Q)
  end.


(** Squared distance from [p] to the line through [a] and [b] (to the
    point [a] when [a = b]). *)
Definition deviation2 (a b p : point) : Q :=
  let cross :=
    (fst b - fst a) * (snd p - snd a) - (snd b - snd a) * (fst p - fst a) in
  if dist2 a b =? 0 then inject_Z (dist2 a p)
  else (inject_Z (cross * cross) / inject_Z (dist2 a b))%Q.

(** Index and value of the first maximum of [f] over [l]. *)
Definition argmax (f : point -> Q) (l : list point) : option (nat * Q) :=
  fold_left
    (fun best '(i, p) =>
       match best with
       | None => Some (i, f p)
       | Some (_, d) => if Qgtb (f p) d then Some (i, f p) else best
       end)
    (enumerate l) None.


(** Modelled from the spec: the Ramer-Douglas-Peucker recursion of the
    PolygonSimplifier on the chain from [a] through [mid] to [b].  The
    chain is replaced by the segment [a b] if every point of [mid] lies
    within the tolerance of the line, else it is split at the point of
    maximum deviation.  The result lists the kept points from [a] up to,
    and excluding, [b]. *)
Fixpoint rdp (fuel : nat) (eps2 : Q) (a : point) (mid : list point)
    (b : point) : list point :=
  match fuel with
  | O => a :: mid
  | S fuel' =>
      match argmax (deviation2 a b) mid with
      | None => [a]
      | Some (k, d) =>
          match mid !! k with
          | Some p =>
              if Qgtb d eps2
              then rdp fuel' eps2 a (take k mid) p
                     ++ rdp fuel' eps2 p (drop (S k) mid) b
              else [a]
          | None => [a]
          end
      end
  end.

(** Modelled from the spec: [cv2.approxPolyDP] on a closed contour.  The
    curve is cut at its first point and at the point farthest from it,
    and each half is simplified. *)
Definition approx_poly_dp (c : contour) (epsilon : Q) : contour :=
  match c with
  | [] => []
  | p0 :: rest =>
      let eps2 := (epsilon * epsilon)%Q in
      let fuel := S (length rest) in
      match argmax (fun p => inject_Z (dist2 p0 p)) rest with
      | None => [p0]
      | Some (k, _) =>
          match rest !! k with
          | Some pk =>
              rdp fuel eps2 p0 (take k rest) pk
                ++ rdp fuel eps2 pk (drop (S k) rest) p0
          | None => [p0]
          end
      end
  end.

(** Modelled from the spec: [cv2.boundingRect], the upright box
    (x, y, width, height) of the points of the contour. *)
Definition bounding_rect_of (c : contour) : Z * Z * Z * Z :=
  match c with
  | [] => (0, 0, 0, 0)
  | (x0, y0) :: rest =>
      let xmin := fold_left Z.min (map fst rest) x0 in
      let xmax := fold_left Z.max (map fst rest) x0 in
      let ymin := fold_left Z.min (map snd rest) y0 in
      let ymax := fold_left Z.max (map snd rest) y0 in
      (xmin, ymin, xmax - xmin + 1, ymax - ymin + 1)
  end.

(** The reference instance.  An image is the function giving, for a
    colour range, the outer boundaries of the components of its cleaned
    mask; a mask is the list of those boundaries.  [cv2.contourArea] is
    Green's formula, that is the absolute shoelace area. *)
#[export] Instance cv : OpenCV := {|
  Image := hsv -> hsv -> list contour;
  Mask := list contour;
  cvtColor_BGR2HSV := fun image => image;
  inRange := fun image lower upper => image lower upper;
  morphologyEx := fun mask _ => mask;
  findContours := fun mask => mask;
  contourArea := shoelace_area;
  arcLength := arc_length;
  approxPolyDP := approx_poly_dp;
  boundingRect := bounding_rect_of
|}.

End Reference.

(** ** Scenarios *)

Module Scenario.
Import Reference.

(** An 80 x 200 rectangle with a shallow roof of height 9 on its far
    side; every edge has integer length (80, 200, 41, 41, 200). *)
Definition bump : contour := [(0, 0); (80, 0); (80, 200); (40, 209); (0, 200)].

(** A 40 x 25 rectangle, of area exactly 1000. *)
Definition rect_40x25 : contour := [(0, 0); (40, 0); (40, 25); (0, 25)].

Definition triangle : contour := [(0, 0); (300, 0); (0, 400)].

Definition square : contour := [(0, 0); (100, 0); (100, 100); (0, 100)].

Definition detector_with (polygons : gmap string (list contour)) : detector :=
  {| original_image := None;
     airspace_polygons := polygons;
     vertex_data := ∅ |}.

(** A chart in which every colour range selects the components traced
    as [components]. *)
Definition chart_with (components : list contour) : Image :=
  fun _ _ => components.

(** A detector that has just loaded [image]. *)
Definition loaded (image : Image) : detector :=
  {| original_image := Some image;
     airspace_polygons := ∅;
     vertex_data := ∅ |}.

(** The bounds and image size of the example in [chart_preprocessing.py]. *)
Definition bordeaux : chart_bounds :=
  {| north := literal 45.2; south := literal 44.5;
     east := literal (-0.3); west := literal (-1.0) |}.

Definition chart_1000x800 : ChartPreprocessor :=
  {| shape := (800, 1000); info_path_writable := true |}.

(** Bounds with north below south and east equal to west. *)
Definition degenerate_bounds : chart_bounds :=
  {| north := literal 44.5; south := literal 45.2;
     east := literal (-1.0); west := literal (-1.0) |}.

(** A rectangle with one more vertex in the middle of an edge. *)
Definition rectangle_with_midpoint : list (Z * Z) :=
  [(0, 0); (4, 0); (4, 2); (0, 2); (0, 1)].

Definition blue_range : gmap string (hsv * hsv) :=
  {[ "controlled_airspace"%string := ((100, 50, 50), (130, 255, 255)) ]}.

Definition airspace_a : string := "controlled_airspace".
Definition airspace_b : string := "danger_areas".

(** One class holding the single contour [bump]. *)
Definition one_bump : detector :=
  detector_with {[ airspace_a := [bump] ]}.

(** One class holding four contours, two of them triangles. *)
Definition four_contours : detector :=
  detector_with {[ airspace_a := [triangle; square; triangle; square] ]}.

(** One class without contours and one whose only contour is a triangle. *)
Definition empty_and_rejected : detector :=
  detector_with {[ airspace_a := []; airspace_b := [triangle] ]}.

(** The record extracted from [bump] with the default parameters. *)
Definition bump_polygon : polygon_data :=
  make_polygon_data (cv := Reference.cv) 0 bump
    [(0, 0); (80, 0); (80, 200); (0, 200)].
End Scenario.

(** ** Further operations on the detection results *)

(** A tuple of [get_vertex_coordinates_list]:
    (airspace_type, polygon_id, vertex_index, x, y). *)
Definition coordinate : Type := string * nat * nat * Z * Z.

(** A data row written by [export_vertices_csv]:
    (Airspace_Type, Polygon_ID, Vertex_Index, X, Y, Area, Perimeter). *)
Definition csv_row : Type := string * nat * nat * Z * Z * Q * Q.

(** What [export_vertices_csv] hands to the CSV writer. *)
Inductive csv_line : Type :=
  | CsvHeader (columns : list string)
  | CsvData (row : csv_row).

(** The value stored per class by [get_polygon_statistics].  The keys
    ["min_area"] and ["min_vertices"] are the fields [smallest_area] and
    [smallest_vertices]. *)
Record polygon_statistics : Type := {
  num_polygons : nat;
  avg_area : float64;
  smallest_area : Q;
  max_area : Q;
  avg_perimeter : float64;
  avg_vertices : float64;
  smallest_vertices : nat;
  max_vertices : nat
}.

(** [np.mean] on a list of numbers.  numpy adds the elements in binary64,
    in an order of its own choosing, and divides the rounded sum; the
    result is a float64 that the program only stores (NaN for an empty
    list).  It is an operation of the library, like those of [cv2]. *)
Class NumPy : Type := {
  np_mean : list Q -> float64
}.

(** [np.min] and [np.max] on a list of floats select one of its elements.
    [None] stands for the [ValueError] that numpy raises on an empty
    list. *)
Definition np_min (l : list Q) : option Q :=
  match l with
  | [] => None
  | x :: l' => Some (fold_left Qmin l' x)
  end.

Definition np_max (l : list Q) : option Q :=
  match l with
  | [] => None
  | x :: l' => Some (fold_left Qmax l' x)
  end.

(** The same extrema on a list of integers. *)
Definition np_min_int (l : list nat) : option nat :=
  match l with
  | [] => None
  | x :: l' => Some (fold_left Nat.min l' x)
  end.

Definition np_max_int (l : list nat) : option nat :=
  match l with
  | [] => None
  | x :: l' => Some (fold_left Nat.max l' x)
  end.

(** The dictionary built by [get_polygon_statistics] for one class. *)
Definition class_statistics `{np : NumPy} (polygons : list polygon_data)
  : option polygon_statistics :=
  let areas := area <$> polygons in
  let perimeters := perimeter <$> polygons in
  let vertex_counts := num_vertices <$> polygons in
  let avg_a := np_mean areas in
  min_a ← np_min areas;
  max_a ← np_max areas;
  let avg_p := np_mean perimeters in
  let avg_v := np_mean ((fun n => inject_Z (Z.of_nat n)) <$> vertex_counts) in
  min_v ← np_min_int vertex_counts;
  max_v ← np_max_int vertex_counts;
  Some {| num_polygons := length polygons;
          avg_area := avg_a;
          smallest_area := min_a;
          max_area := max_a;
          avg_perimeter := avg_p;
          avg_vertices := avg_v;
          smallest_vertices := min_v;
          max_vertices := max_v |}.

(** The tuples that the loops of [get_vertex_coordinates_list] append for
    one polygon of a class. *)
Definition coordinates_of_polygon (airspace_type : string)
    (polygon : polygon_data) : list coordinate :=
  (fun ixy : nat * (Z * Z) =>
     (airspace_type, polygon_id polygon, (ixy.1 + 1)%nat, ixy.2.1, ixy.2.2))
    <$> enumerate (vertices polygon).

(** The rows that the loops of [export_vertices_csv] write for one polygon
    of a class. *)
Definition rows_of_polygon (airspace_type : string)
    (polygon : polygon_data) : list csv_row :=
  (fun ixy : nat * (Z * Z) =>
     (airspace_type, polygon_id polygon, (ixy.1 + 1)%nat, ixy.2.1, ixy.2.2,
      area polygon, perimeter polygon))
    <$> enumerate (vertices polygon).

(** The first five columns of a data row. *)
Definition row_coordinate (row : csv_row) : coordinate :=
  let '(airspace_type, polygon_id, vertex_index, x, y, _, _) := row in
  (airspace_type, polygon_id, vertex_index, x, y).

Section Exports.
Context `{cv : OpenCV} `{np : NumPy}.

(** [ChartPreprocessor.approximate_polygons(contours, epsilon_factor)];
    the picture drawn and saved before returning is not part of the
    model. *)
Definition approximate_polygons (contours : list contour)
    (epsilon_factor : Q) : list contour :=
  fold_left
    (fun approximated_contours contour =>
       let epsilon := (epsilon_factor * arcLength contour)%Q in
       let approx := approxPolyDP contour epsilon in
       approximated_contours ++ [approx])
    contours [].

(** [get_vertex_coordinates_list()].  Classes are visited in the order in
    which the map enumerates them; polygons and vertices in their list
    order. *)
Definition get_vertex_coordinates_list (self : detector) : list coordinate :=
  fold_left
    (fun coordinates_list '(airspace_type, polygons) =>
       fold_left
         (fun coordinates_list polygon =>
            fold_left
              (fun coordinates_list '(i, (x, y)) =>
                 coordinates_list
                 ++ [(airspace_type, polygon_id polygon, (i + 1)%nat, x, y)])
              (enumerate (vertices polygon)) coordinates_list)
         polygons coordinates_list)
    (map_to_list (vertex_data self)) [].

(** The rows written by [export_vertices_csv]: the header, then one row
    per vertex. *)
Definition export_vertices_csv (self : detector) : list csv_line :=
  let header :=
    CsvHeader ["Airspace_Type"; "Polygon_ID"; "Vertex_Index"; "X"; "Y";
               "Area"; "Perimeter"]%string in
  fold_left
    (fun written '(airspace_type, polygons) =>
       fold_left
         (fun written polygon =>
            fold_left
              (fun written '(i, (x, y)) =>
                 written
                 ++ [CsvData (airspace_type, polygon_id polygon, (i + 1)%nat,
                              x, y, area polygon, perimeter polygon)])
              (enumerate (vertices polygon)) written)
         polygons written)
    (map_to_list (vertex_data self)) [header].

(** The counts in the ["metadata"] of [save_vertex_data]:
    [total_airspace_types] and [total_polygons]. *)
Definition total_airspace_types (self : detector) : nat :=
  size (vertex_data self).

Definition total_polygons (self : detector) : nat :=
  fold_left (fun total polygons => (total + length polygons)%nat)
    (snd <$> map_to_list (vertex_data self)) 0%nat.

(** The number of contours held in the contour store. *)
Definition total_contours (self : detector) : nat :=
  fold_left (fun total contours => (total + length contours)%nat)
    (snd <$> map_to_list (airspace_polygons self)) 0%nat.

(** [get_polygon_statistics()].  [None] stands for an exception raised by
    numpy. *)
Definition get_polygon_statistics (self : detector)
  : option (gmap string polygon_statistics) :=
  map_fold
    (fun airspace_type polygons acc =>
       match polygons with
       | [] => acc
       | _ =>
           stats ← acc;
           entry ← class_statistics polygons;
           Some (<[airspace_type := entry]> stats)
       end)
    (Some ∅) (vertex_data self).

End Exports.

(** ** Loading an image *)

(** Exceptions raised while a detector is constructed. *)
Inductive load_error : Type :=
  | FileNotFoundError
  | ValueError.

(** Failures of [PolygonSuperimposer._load_and_detect]: those of the
    construction and those of the detector's methods. *)
Inductive analysis_error : Type :=
  | LoadFailed (e : load_error)
  | DetectFailed (e : py_error).

Inductive outcome (E A : Type) : Type :=
  | Done (a : A)
  | Failed (e : E).
Arguments Done {E A} a.
Arguments Failed {E A} e.

(** Truth value of an optional string argument: [None] and the empty
    string are false. *)
Definition truthy (o : option string) : bool :=
  match o with
  | Some (String _ _) => true
  | _ => false
  end.

(** [folder / "01_original" / "original.png"]. *)
Definition original_path (folder : string) : string :=
  (folder +:+ "/01_original/original.png")%string.

Section Loading.
Context `{cv : OpenCV}.

(** What the loaders ask of the file system: [Path.exists] and
    [cv2.imread], which gives [None] for a file it cannot decode. *)
Record file_system : Type := {
  path_exists : string -> bool;
  imread : string -> option Image
}.

(** [_load_preprocessed_data]: the value assigned to
    [self.original_image]. *)
Definition _load_preprocessed_data (fs : file_system) (folder : string)
  : outcome load_error (option Image) :=
  if negb (path_exists fs folder) then Failed FileNotFoundError
  else
    if path_exists fs (original_path folder)
    then Done (imread fs (original_path folder))
    else Failed FileNotFoundError.

(** [_load_original_image]. *)
Definition _load_original_image (fs : file_system) (image_path : string)
  : outcome load_error (option Image) :=
  if negb (path_exists fs image_path) then Failed FileNotFoundError
  else
    match imread fs image_path with
    | None => Failed ValueError
    | Some image => Done (Some image)
    end.

(** [AirspaceVertexDetector.__init__(preprocessed_folder, image_path)]. *)
Definition new_detector (fs : file_system)
    (preprocessed_folder image_path : option string)
  : outcome load_error detector :=
  let fresh (image : option Image) :=
    {| original_image := image;
       airspace_polygons := ∅;
       vertex_data := ∅ |} in
  if truthy preprocessed_folder then
    match _load_preprocessed_data fs (default ""%string preprocessed_folder) with
    | Done image => Done (fresh image)
    | Failed e => Failed e
    end
  else if truthy image_path then
    match _load_original_image fs (default ""%string image_path) with
    | Done image => Done (fresh image)
    | Failed e => Failed e
    end
  else Done (fresh None).

(** The attributes that [PolygonSuperimposer._load_and_detect] sets. *)
Record superimposer : Type := {
  superimposer_image : Image;
  vertex_detector : detector;
  superimposer_vertex_data : gmap string (list polygon_data)
}.

(** [PolygonSuperimposer._load_and_detect]; the copy of the image written
    to the result folder is not part of the model. *)
Definition _load_and_detect (fs : file_system)
    (image_path preprocessed_folder : option string)
  : outcome analysis_error superimposer :=
  let constructed :=
    if truthy preprocessed_folder
    then
      match new_detector fs preprocessed_folder None with
      | Done created => Done created
      | Failed e => Failed (LoadFailed e)
      end
    else if truthy image_path
    then
      match new_detector fs None image_path with
      | Done created => Done created
      | Failed e => Failed (LoadFailed e)
      end
    else Failed (LoadFailed ValueError) in
  match constructed with
  | Failed e => Failed e
  | Done created =>
      match original_image created with
      | None => Failed (LoadFailed ValueError)
      | Some image =>
          match detect_airspace_areas None created with
          | Raise e => Failed (DetectFailed e)
          | Ok detected =>
              let extracted := extract_polygon_vertices 0.02 3 detected in
              Done {| superimposer_image := image;
                      vertex_detector := extracted;
                      superimposer_vertex_data := vertex_data extracted |}
          end
      end
  end.

(** [get_coordinates_from_image(image_path)] of
    [get_vertex_coordinates.py]: any exception gives the empty list.  The
    coordinates printed and written on the way are not part of the
    model. *)
Definition get_coordinates_from_image (fs : file_system)
    (image_path : string) : list coordinate :=
  match new_detector fs None (Some image_path) with
  | Failed _ => []
  | Done created =>
      match detect_airspace_areas None created with
      | Raise _ => []
      | Ok detected =>
          get_vertex_coordinates_list
            (extract_polygon_vertices 0.02 3 detected)
      end
  end.

End Loading.

Arguments file_system {cv}.
Arguments superimposer {cv}.

(** ** Names of the individual polygon images *)

(** Leading zeros up to [width] digits. *)
Definition zero_pad (width : nat) (d : Decimal.uint) : Decimal.uint :=
  Nat.iter (width - Decimal.nb_digits d) Decimal.D0 d.

(** The format [:03d] on a non-negative integer. *)
Definition format_03d (n : nat) : string :=
  NilEmpty.string_of_uint (zero_pad 3 (Nat.to_uint n)).

(** [f"{airspace_type}_polygon_{polygon['id']:03d}.png"]. *)
Definition individual_image_name (airspace_type : string)
    (polygon : polygon_data) : string :=
  (airspace_type +:+ "_polygon_" +:+ format_03d (polygon_id polygon)
   +:+ ".png")%string.

(** [PolygonSuperimposer.create_individual_polygon_images] on
    [self.vertex_data]: the files written, each as the class folder and the
    file name in it, and the final [polygon_count].  The pictures
    themselves are not part of the model. *)
Definition create_individual_polygon_images
    (vertex_data : gmap string (list polygon_data))
  : list (string * string) * nat :=
  fold_left
    (fun state '(airspace_type, polygons) =>
       match polygons with
       | [] => state
       | _ =>
           fold_left
             (fun '(written, polygon_count) polygon =>
                let filename := individual_image_name airspace_type polygon in
                (written ++ [(airspace_type, filename)],
                 (polygon_count + 1)%nat))
             polygons state
       end)
    (map_to_list vertex_data) ([], 0%nat).

(** ** Cropping *)








(** ** Further scenarios *)

Module Cases.
Import Reference.

(** A disk on which every path exists and no file can be decoded. *)
Definition unreadable_disk : file_system :=
  {| path_exists := fun _ => true;
     imread := fun _ => None |}.

(** A disk holding the single readable file ["chart.png"]. *)
Definition disk_with (image : Image) : file_system :=
  {| path_exists := fun path => String.eqb path "chart.png";
     imread :=
       fun path => if String.eqb path "chart.png" then Some image else None |}.

(** A reference implementation of [np.mean], used for the scenario below:
    the binary64 sum of the elements in list order, divided by their
    number.  For a list of two elements no other order of summation
    exists. *)
Definition float_of_Q (q : Q) : float64 :=
  float_div
    (SpecFloat.binary_normalize FloatOps.prec FloatOps.emax (Qnum q) 0 false)
    (SpecFloat.binary_normalize FloatOps.prec FloatOps.emax (Z.pos (Qden q))
       0 false).

Definition mean_in_list_order (l : list Q) : float64 :=
  float_div
    (fold_left (fun total x => float_add total (float_of_Q x)) l
       (SpecFloat.S754_zero false))
    (SpecFloat.binary_normalize FloatOps.prec FloatOps.emax
       (Z.of_nat (length l)) 0 false).

#[export] Instance np : NumPy := {| np_mean := mean_in_list_order |}.

(** The collection extracted from a class that holds [bump] and [square]. *)
Definition bump_and_square : detector :=
  extract_polygon_vertices 0.02 3
    (Scenario.detector_with
       {[ Scenario.airspace_a := [Scenario.bump; Scenario.square] ]}).

(** The statistics of that class. *)
Definition bump_and_square_entry : polygon_statistics :=
  {| num_polygons := 2;
     avg_area := literal 13180;
     smallest_area := 20000 # 2;
     max_area := 32720 # 2;
     avg_perimeter := literal 481;
     avg_vertices := literal 4;
     smallest_vertices := 4;
     max_vertices := 4 |}.


End Cases.

(** ** Facts about the loops of the detector *)

Section DetectorFacts.
Context `{cv : OpenCV}.
Implicit Types (self : detector) (contours : list contour).
Implicit Types (polygons : list polygon_data) (p : polygon_data).

Lemma extract_step_accepted ef mv polygons ic :
  extract_step ef mv polygons ic =
  match accepted ef mv ic with
  | Some p => polygons ++ [p]
  | None => polygons
  end.
Proof.
  destruct ic as [i c]. unfold extract_step, accepted. simpl.
  destruct (_ >=? _); reflexivity.
Qed.

Lemma fold_extract_step ef mv l polygons :
  fold_left (extract_step ef mv) l polygons =
  polygons ++ omap (accepted ef mv) l.
Proof.
  revert polygons. induction l as [|ic l IH]; intros polygons; simpl.
  - symmetry. apply app_nil_r.
  - rewrite IH, extract_step_accepted.
    destruct (accepted ef mv ic); [|reflexivity].
    rewrite <- app_assoc. reflexivity.
Qed.

Lemma extract_polygons_omap ef mv contours :
  extract_polygons ef mv contours =
  omap (accepted ef mv) (enumerate contours).
Proof. unfold extract_polygons. apply fold_extract_step. Qed.

Lemma elem_of_enumerate_from {A} (l : list A) start i (x : A) :
  (i, x) ∈ enumerate_from start l ↔
  ∃ j, i = (start + j)%nat ∧ l !! j = Some x.
Proof.
  revert start. induction l as [|y l IH]; intros start; simpl.
  - split; [intros H; inversion H | intros (j & _ & H); discriminate].
  - rewrite elem_of_cons, IH. split.
    + intros [Heq | (j & -> & Hj)].
      * inversion Heq; subst. exists 0%nat. split; [lia | reflexivity].
      * exists (S j). split; [lia | exact Hj].
    + intros ([|j] & -> & Hj); simpl in Hj.
      * left. inversion Hj; subst. f_equal. lia.
      * right. exists j. split; [lia | exact Hj].
Qed.

Lemma vertices_make i c approx :
  vertices (make_polygon_data i c approx) = approx.
Proof.
  unfold make_polygon_data. destruct (boundingRect c) as [[[rx ry] rw] rh].
  simpl. induction approx as [|[x y] l IH]; simpl; [reflexivity|].
  f_equal. exact IH.
Qed.

Lemma polygon_id_make i c approx :
  polygon_id (make_polygon_data i c approx) = (i + 1)%nat.
Proof.
  unfold make_polygon_data. destruct (boundingRect c) as [[[rx ry] rw] rh].
  reflexivity.
Qed.

Lemma num_vertices_make i c approx :
  num_vertices (make_polygon_data i c approx) = length approx.
Proof.
  unfold make_polygon_data. destruct (boundingRect c) as [[[rx ry] rw] rh].
  simpl. apply length_map.
Qed.

Lemma accepted_Some ef mv i c p :
  accepted ef mv (i, c) = Some p →
  p = make_polygon_data i c (approxPolyDP c (ef * arcLength c)%Q) ∧
  (mv <= Z.of_nat (length (approxPolyDP c (ef * arcLength c)%Q)))%Z.
Proof.
  unfold accepted. simpl.
  destruct (_ >=? _) eqn:E; [|discriminate].
  intros [= <-]. split; [reflexivity | lia].
Qed.

(** Every record of the inner loop's result stems from one contour. *)
Lemma extract_polygons_origin ef mv contours j p :
  extract_polygons ef mv contours !! j = Some p →
  ∃ i c, contours !! i = Some c ∧ accepted ef mv (i, c) = Some p.
Proof.
  intros Hj. rewrite extract_polygons_omap in Hj.
  assert (Hin : p ∈ omap (accepted ef mv) (enumerate contours))
    by (apply list_elem_of_lookup; eauto).
  apply list_elem_of_omap in Hin as ([i c] & Hic & Hacc).
  apply elem_of_enumerate_from in Hic as (k & -> & Hk).
  exists k, c. split; [exact Hk | exact Hacc].
Qed.

Lemma extract_ids_sorted ef mv contours start :
  StronglySorted lt
    (polygon_id <$> omap (accepted ef mv) (enumerate_from start contours)) ∧
  Forall (fun p => (start < polygon_id p)%nat)
    (omap (accepted ef mv) (enumerate_from start contours)).
Proof.
  revert start. induction contours as [|c l IH]; intros start; simpl.
  - split; constructor.
  - destruct (IH (S start)) as [Hs Hf].
    assert (Hf' : Forall (fun p => (start < polygon_id p)%nat)
              (omap (accepted ef mv) (enumerate_from (S start) l))).
    { eapply Forall_impl; [exact Hf|]. simpl. intros; lia. }
    destruct (accepted ef mv (start, c)) as [p|] eqn:E; simpl.
    + apply accepted_Some in E as [-> _]. rewrite polygon_id_make.
      split.
      * constructor; [exact Hs|].
        apply Forall_fmap. eapply Forall_impl; [exact Hf|].
        simpl. intros; lia.
      * constructor; [|exact Hf'].
        rewrite polygon_id_make. lia.
    + split; [exact Hs | exact Hf'].
Qed.

(** The outer loop of [extract_polygon_vertices], key by key. *)
Lemma extract_lookup ef mv self k :
  vertex_data (extract_polygon_vertices ef mv self) !! k =
  match airspace_polygons self !! k with
  | Some (c :: l) => Some (extract_polygons ef mv (c :: l))
  | _ => None
  end.
Proof.
  unfold extract_polygon_vertices. simpl.
  apply (map_fold_weak_ind
           (fun r (m : gmap string (list contour)) =>
              r !! k = match m !! k with
                       | Some (c :: l) => Some (extract_polygons ef mv (c :: l))
                       | _ => None
                       end)).
  - rewrite !lookup_empty. reflexivity.
  - intros i x m r Hi IH.
    destruct (decide (i = k)) as [->|Hne].
    + rewrite lookup_insert_eq. rewrite Hi in IH.
      destruct x; [exact IH | apply lookup_insert_eq].
    + rewrite (lookup_insert_ne m) by exact Hne.
      destruct x; [exact IH|].
      rewrite lookup_insert_ne by exact Hne. exact IH.
Qed.

Lemma filter_contours_sublist contours :
  filter_contours contours `sublist_of` contours.
Proof.
  unfold filter_contours. induction contours as [|c l IH]; simpl.
  - constructor.
  - destruct (Qgtb _ _); [apply sublist_skip | apply sublist_cons]; exact IH.
Qed.

Lemma Qgtb_spec (a b : Q) : Qgtb a b = true ↔ (b < a)%Q.
Proof.
  unfold Qgtb. rewrite (Qgt_alt a b).
  destruct (a ?= b)%Q; split; congruence.
Qed.

Lemma elem_of_filter_contours contours c :
  c ∈ filter_contours contours ↔
  c ∈ contours ∧ (min_area < contourArea c)%Q.
Proof.
  unfold filter_contours.
  rewrite !list_elem_of_In, filter_In, Qgtb_spec. reflexivity.
Qed.

Lemma detect_class_filter hsv_image lower upper :
  detect_class hsv_image lower upper =
  filter_contours
    (findContours
       (morphologyEx
          (morphologyEx (inRange hsv_image lower upper) MORPH_CLOSE)
          MORPH_OPEN)).
Proof. unfold detect_class. destruct (filter_contours _); reflexivity. Qed.

(** The loop of [detect_airspace_areas], key by key. *)
Lemma detect_lookup (ranges : gmap string (hsv * hsv)) hsv_image k :
  map_fold
    (fun airspace_type '(lower, upper) acc =>
       <[airspace_type := detect_class hsv_image lower upper]> acc)
    (∅ : gmap string (list contour)) ranges !! k =
  (fun lu : hsv * hsv => detect_class hsv_image lu.1 lu.2) <$> ranges !! k.
Proof.
  apply (map_fold_weak_ind
           (fun r (m : gmap string (hsv * hsv)) =>
              r !! k =
              (fun lu : hsv * hsv => detect_class hsv_image lu.1 lu.2)
                <$> m !! k)).
  - rewrite !lookup_empty. reflexivity.
  - intros i [lower upper] m r Hi IH.
    destruct (decide (i = k)) as [->|Hne].
    + rewrite !lookup_insert_eq. reflexivity.
    + rewrite !lookup_insert_ne by exact Hne. exact IH.
Qed.

End DetectorFacts.

(** ** Properties of vertex extraction *)

(** C5. For every polygon record of the collection built by
    [extract_polygon_vertices], [num_vertices] equals the length of
    [vertices], and that length is at least the [min_vertices] used. *)
Theorem num_vertices_is_length_and_at_least_min
    {cv : OpenCV} (epsilon_factor : Q) (min_vertices : Z) (self : detector)
    (airspace_type : string) (polygons : list polygon_data) (j : nat)
    (p : polygon_data) :
  vertex_data (extract_polygon_vertices epsilon_factor min_vertices self)
    !! airspace_type = Some polygons →
  polygons !! j = Some p →
  num_vertices p = length (vertices p) ∧
  (min_vertices <= Z.of_nat (length (vertices p)))%Z.
Proof.
  intros Hk Hj. rewrite extract_lookup in Hk.
  destruct (airspace_polygons self !! airspace_type) as [[|c l]|];
    try discriminate.
  injection Hk as <-.
  apply extract_polygons_origin in Hj as (i & c' & _ & Hacc).
  apply accepted_Some in Hacc as [-> Hlen].
  rewrite num_vertices_make, vertices_make. split; [reflexivity | exact Hlen].
Qed.

Lemma num_vertices_is_length_and_at_least_min_witness :
  num_vertices Scenario.bump_polygon = length (vertices Scenario.bump_polygon) ∧
  (3 <= Z.of_nat (length (vertices Scenario.bump_polygon)))%Z.
Proof.
  apply (num_vertices_is_length_and_at_least_min (cv := Reference.cv)
           0.02%Q 3 Scenario.one_bump Scenario.airspace_a
           [Scenario.bump_polygon] 0 Scenario.bump_polygon).
  - vm_compute. reflexivity.
  - reflexivity.
Defined.

(** C9. Within a class, the id of a polygon is the 1-based index of its
    originating contour in the class's contour sequence; ids are strictly
    increasing in output order, hence pairwise distinct; they need not be
    consecutive nor start at 1 (four contours of which the first and third
    fail the vertex test give the ids 2 and 4). *)
Theorem polygon_ids_are_contour_positions :
  (∀ (cv : OpenCV) (epsilon_factor : Q) (min_vertices : Z) (self : detector)
     (airspace_type : string) (polygons : list polygon_data),
     vertex_data (extract_polygon_vertices epsilon_factor min_vertices self)
       !! airspace_type = Some polygons →
     ∃ contours,
       airspace_polygons self !! airspace_type = Some contours ∧
       (∀ j p, polygons !! j = Some p →
          ∃ i c, contours !! i = Some c ∧
                 polygon_id p = (i + 1)%nat ∧
                 p = make_polygon_data i c
                       (approxPolyDP c (epsilon_factor * arcLength c)%Q)) ∧
       StronglySorted lt (polygon_id <$> polygons) ∧
       NoDup (polygon_id <$> polygons)) ∧
  (∃ polygons,
     vertex_data
       (extract_polygon_vertices (cv := Reference.cv) 0.02%Q 4
          Scenario.four_contours)
       !! Scenario.airspace_a = Some polygons ∧
     polygon_id <$> polygons = [2; 4]%nat).
Proof.
  split.
  - intros cv ef mv self k polygons Hk. rewrite extract_lookup in Hk.
    destruct (airspace_polygons self !! k) as [[|c l]|]; try discriminate.
    injection Hk as <-. exists (c :: l). split; [reflexivity|].
    assert (Hs : StronglySorted lt
                   (polygon_id <$> extract_polygons ef mv (c :: l))).
    { rewrite extract_polygons_omap. apply extract_ids_sorted. }
    split; [|split; [exact Hs|]].
    + intros j p Hj.
      apply extract_polygons_origin in Hj as (i & c' & Hi & Hacc).
      apply accepted_Some in Hacc as [-> _].
      exists i, c'. rewrite polygon_id_make. auto.
    + clear -Hs. induction Hs as [|x xs _ IH Hx]; constructor; [|exact IH].
      intros Hin. rewrite Forall_forall in Hx. apply Hx in Hin. lia.
  - eexists. split; [vm_compute; reflexivity | reflexivity].
Qed.

Lemma polygon_ids_are_contour_positions_witness :
  ∃ contours,
    airspace_polygons Scenario.one_bump !! Scenario.airspace_a
    = Some contours ∧
    (∀ j p, [Scenario.bump_polygon] !! j = Some p →
       ∃ i c, contours !! i = Some c ∧
              polygon_id p = (i + 1)%nat ∧
              p = make_polygon_data (cv := Reference.cv) i c
                    (approxPolyDP (OpenCV := Reference.cv) c
                       (0.02 * arcLength (OpenCV := Reference.cv) c)%Q)) ∧
    StronglySorted lt (polygon_id <$> [Scenario.bump_polygon]) ∧
    NoDup (polygon_id <$> [Scenario.bump_polygon]).
Proof.
  apply (proj1 polygon_ids_are_contour_positions Reference.cv 0.02%Q 3
           Scenario.one_bump
           Scenario.airspace_a [Scenario.bump_polygon]).
  vm_compute. reflexivity.
Defined.

(** C8. A class whose stored contour list is empty is not a key of the
    collection built by [extract_polygon_vertices], while a class with
    contours that all fail the [min_vertices] test is a key mapped to the
    empty list; both occur in one run, so a class without detections is
    represented in two ways. *)
Theorem no_detections_has_two_representations :
  (∀ (cv : OpenCV) (epsilon_factor : Q) (min_vertices : Z) (self : detector)
     (airspace_type : string),
     (airspace_polygons self !! airspace_type = Some [] →
      vertex_data (extract_polygon_vertices epsilon_factor min_vertices self)
        !! airspace_type = None) ∧
     (∀ contours,
        airspace_polygons self !! airspace_type = Some contours →
        contours ≠ [] →
        Forall
          (fun c =>
             (Z.of_nat
                (length (approxPolyDP c (epsilon_factor * arcLength c)%Q))
              < min_vertices)%Z)
          contours →
        vertex_data (extract_polygon_vertices epsilon_factor min_vertices self)
          !! airspace_type = Some [])) ∧
  (let collection :=
     vertex_data
       (extract_polygon_vertices (cv := Reference.cv) 0.02%Q 4
          Scenario.empty_and_rejected) in
   collection !! Scenario.airspace_a = None ∧
   collection !! Scenario.airspace_b = Some []).
Proof.
  split.
  - intros cv ef mv self k. split.
    + intros Hk. rewrite extract_lookup, Hk. reflexivity.
    + intros contours Hk Hne Hall. rewrite extract_lookup, Hk.
      destruct contours as [|c l]; [congruence|]. f_equal.
      rewrite extract_polygons_omap. unfold enumerate.
      generalize 0%nat. revert Hall. generalize (c :: l). clear.
      intros contours Hall. induction Hall as [|c l Hc _ IH]; intros n.
      * reflexivity.
      * simpl. unfold accepted at 1. simpl.
        destruct (_ >=? _) eqn:E; [lia | apply IH].
  - split; vm_compute; reflexivity.
Qed.

Lemma no_detections_has_two_representations_witness :
  vertex_data
    (extract_polygon_vertices (cv := Reference.cv) 0.02%Q 4
       Scenario.empty_and_rejected)
    !! Scenario.airspace_a = None ∧
  vertex_data
    (extract_polygon_vertices (cv := Reference.cv) 0.02%Q 4
       Scenario.empty_and_rejected)
    !! Scenario.airspace_b = Some [].
Proof.
  pose proof (proj1 no_detections_has_two_representations Reference.cv
                0.02%Q 4 Scenario.empty_and_rejected) as H.
  split.
  - apply (proj1 (H Scenario.airspace_a)). vm_compute. reflexivity.
  - apply (proj2 (H Scenario.airspace_b) [Scenario.triangle]).
    + vm_compute. reflexivity.
    + discriminate.
    + repeat constructor.
Defined.

(** C10. [extract_polygon_vertices] only replaces the polygon-record
    store: the loaded image and the per-class contour store are unchanged,
    and the result does not depend on the records stored before, so
    extracting again with other parameters gives the same result as
    extracting with them in the first place. *)
Theorem extraction_only_replaces_vertex_data
    {cv : OpenCV} (epsilon_factor : Q) (min_vertices : Z) (self : detector) :
  let self' := extract_polygon_vertices epsilon_factor min_vertices self in
  original_image self' = original_image self ∧
  airspace_polygons self' = airspace_polygons self ∧
  (∀ vertex_data0,
     extract_polygon_vertices epsilon_factor min_vertices
       {| original_image := original_image self;
          airspace_polygons := airspace_polygons self;
          vertex_data := vertex_data0 |} = self') ∧
  (∀ epsilon_factor' min_vertices',
     extract_polygon_vertices epsilon_factor' min_vertices' self' =
     extract_polygon_vertices epsilon_factor' min_vertices' self).
Proof.
  repeat split.
Qed.

(** C1 (as stated, refuted). For the contour [bump] and the default
    parameters the simplified polygon is the 80 x 200 rectangle, whose
    shoelace area is 16000, but the recorded area is 16360, the area of the
    original contour. *)
Lemma recorded_area_differs_from_simplified_area :
  ∃ p,
    vertex_data
      (extract_polygon_vertices (cv := Reference.cv) 0.02%Q 3
         Scenario.one_bump)
      !! Scenario.airspace_a = Some [p] ∧
    vertices p = [(0, 0); (80, 0); (80, 200); (0, 200)] ∧
    (shoelace_area (vertices p) == 16000)%Q ∧
    (area p == 16360)%Q ∧
    ¬ (area p == shoelace_area (vertices p))%Q.
Proof.
  exists Scenario.bump_polygon. split; [vm_compute; reflexivity|].
  split; [reflexivity|]. split; [reflexivity|]. split; [reflexivity|].
  intros H. vm_compute in H. discriminate H.
Qed.

(** C1 (amended). For every polygon record produced by vertex extraction,
    the recorded area is [cv2.contourArea] of the original, un-simplified
    contour, as the perimeter is its arc length and the bounding box its
    bounding rectangle; the vertex list alone is the simplified polygon. *)
Theorem recorded_area_is_contour_area
    {cv : OpenCV} (epsilon_factor : Q) (min_vertices : Z) (self : detector)
    (airspace_type : string) (polygons : list polygon_data) (j : nat)
    (p : polygon_data) :
  vertex_data (extract_polygon_vertices epsilon_factor min_vertices self)
    !! airspace_type = Some polygons →
  polygons !! j = Some p →
  ∃ contours i c,
    airspace_polygons self !! airspace_type = Some contours ∧
    contours !! i = Some c ∧
    polygon_id p = (i + 1)%nat ∧
    vertices p = approxPolyDP c (epsilon_factor * arcLength c)%Q ∧
    area p = contourArea c ∧
    perimeter p = arcLength c ∧
    (bb_x (bounding_box p), bb_y (bounding_box p),
     bb_width (bounding_box p), bb_height (bounding_box p)) =
      boundingRect c.
Proof.
  intros Hk Hj. rewrite extract_lookup in Hk.
  destruct (airspace_polygons self !! airspace_type) as [[|c0 l]|];
    try discriminate.
  injection Hk as <-.
  apply extract_polygons_origin in Hj as (i & c & Hi & Hacc).
  apply accepted_Some in Hacc as [-> _].
  exists (c0 :: l), i, c.
  rewrite polygon_id_make, vertices_make.
  repeat (split; [reflexivity || exact Hi|]).
  unfold make_polygon_data.
  destruct (boundingRect c) as [[[rx ry] rw] rh]. repeat split.
Qed.

Lemma recorded_area_is_contour_area_witness :
  ∃ contours i c,
    airspace_polygons Scenario.one_bump !! Scenario.airspace_a
    = Some contours ∧
    contours !! i = Some c ∧
    polygon_id Scenario.bump_polygon = (i + 1)%nat ∧
    vertices Scenario.bump_polygon =
      approxPolyDP (OpenCV := Reference.cv) c
        (0.02 * arcLength (OpenCV := Reference.cv) c)%Q ∧
    area Scenario.bump_polygon = contourArea (OpenCV := Reference.cv) c ∧
    perimeter Scenario.bump_polygon = arcLength (OpenCV := Reference.cv) c ∧
    (bb_x (bounding_box Scenario.bump_polygon), bb_y (bounding_box Scenario.bump_polygon),
     bb_width (bounding_box Scenario.bump_polygon),
     bb_height (bounding_box Scenario.bump_polygon)) =
      boundingRect (OpenCV := Reference.cv) c.
Proof.
  apply (recorded_area_is_contour_area (cv := Reference.cv) 0.02%Q 3
           Scenario.one_bump
           Scenario.airspace_a [Scenario.bump_polygon] 0 Scenario.bump_polygon).
  - vm_compute. reflexivity.
  - reflexivity.
Defined.

(** ** Properties of contour detection *)

(** C3 (as stated, refuted). A component whose area is exactly 1000 is not
    below the threshold, yet it is discarded. *)
Lemma component_of_area_1000_is_discarded :
  ∃ self',
    detect_airspace_areas (cv := Reference.cv) (Some Scenario.blue_range)
      (Scenario.loaded (Scenario.chart_with [Scenario.rect_40x25]))
    = Ok self' ∧
    findContours (OpenCV := Reference.cv)
      (morphologyEx
         (morphologyEx
            (inRange
               (cvtColor_BGR2HSV (Scenario.chart_with [Scenario.rect_40x25]))
               (100, 50, 50) (130, 255, 255))
            MORPH_CLOSE)
         MORPH_OPEN) = [Scenario.rect_40x25] ∧
    (contourArea (OpenCV := Reference.cv) Scenario.rect_40x25 == 1000)%Q ∧
    ¬ (contourArea (OpenCV := Reference.cv) Scenario.rect_40x25 < 1000)%Q ∧
    airspace_polygons self' !! Scenario.airspace_a = Some [].
Proof.
  eexists. split; [reflexivity|]. split; [reflexivity|].
  split; [reflexivity|]. split; [|vm_compute; reflexivity].
  intros H. vm_compute in H. discriminate H.
Qed.

(** C3 (amended). With an image loaded, [detect_airspace_areas] succeeds
    and stores exactly one entry per colour class; for every class, a
    traced component of the cleaned mask is stored if and only if its area
    is strictly greater than the fixed threshold 1000 (a component of area
    1000 or less is discarded), the stored components keep their traced
    order, and when no component exceeds the threshold the class is mapped
    to the empty list. *)
Theorem contours_kept_iff_area_exceeds_min_area
    {cv : OpenCV} (color_ranges : option (gmap string (hsv * hsv)))
    (self : detector) (image : Image) :
  original_image self = Some image →
  ∃ self',
    detect_airspace_areas color_ranges self = Ok self' ∧
    ∀ airspace_type,
      match default default_color_ranges color_ranges !! airspace_type with
      | None => airspace_polygons self' !! airspace_type = None
      | Some (lower, upper) =>
          let traced :=
            findContours
              (morphologyEx
                 (morphologyEx
                    (inRange (cvtColor_BGR2HSV image) lower upper)
                    MORPH_CLOSE)
                 MORPH_OPEN) in
          ∃ stored,
            airspace_polygons self' !! airspace_type = Some stored ∧
            (∀ c, c ∈ stored ↔ c ∈ traced ∧ (1000 < contourArea c)%Q) ∧
            stored `sublist_of` traced ∧
            ((∀ c, c ∈ traced → ¬ (1000 < contourArea c)%Q) → stored = [])
      end.
Proof.
  intros Himg. unfold detect_airspace_areas. rewrite Himg.
  eexists. split; [reflexivity|]. simpl. intros k.
  rewrite detect_lookup.
  destruct (default default_color_ranges color_ranges !! k)
    as [[lower upper]|]; simpl; [|reflexivity].
  eexists. split; [reflexivity|]. rewrite detect_class_filter.
  split; [|split].
  - intros c. apply elem_of_filter_contours.
  - apply filter_contours_sublist.
  - intros Hnone.
    destruct (filter_contours _) as [|c l] eqn:E; [reflexivity|].
    assert (Hc : c ∈ filter_contours
                   (findContours
                      (morphologyEx
                         (morphologyEx
                            (inRange (cvtColor_BGR2HSV image) lower upper)
                            MORPH_CLOSE)
                         MORPH_OPEN))) by (rewrite E; left).
    apply elem_of_filter_contours in Hc as [Hin Hgt].
    exfalso. exact (Hnone c Hin Hgt).
Qed.

Lemma contours_kept_iff_area_exceeds_min_area_witness :
  original_image
    (Scenario.loaded
       (Scenario.chart_with [Scenario.bump; Scenario.rect_40x25]))
  = Some (Scenario.chart_with [Scenario.bump; Scenario.rect_40x25]) ∧
  ∃ self',
    detect_airspace_areas (cv := Reference.cv) (Some Scenario.blue_range)
      (Scenario.loaded
         (Scenario.chart_with [Scenario.bump; Scenario.rect_40x25]))
    = Ok self' ∧
    ∀ airspace_type,
      match Scenario.blue_range !! airspace_type with
      | None => airspace_polygons self' !! airspace_type = None
      | Some (lower, upper) =>
          ∃ stored,
            airspace_polygons self' !! airspace_type = Some stored ∧
            (∀ c, c ∈ stored ↔
                  c ∈ [Scenario.bump; Scenario.rect_40x25] ∧
                  (1000 < shoelace_area c)%Q) ∧
            stored `sublist_of` [Scenario.bump; Scenario.rect_40x25] ∧
            ((∀ c, c ∈ [Scenario.bump; Scenario.rect_40x25] →
                   ¬ (1000 < shoelace_area c)%Q) → stored = [])
      end.
Proof.
  split; [reflexivity|].
  apply (contours_kept_iff_area_exceeds_min_area (cv := Reference.cv)
           (Some Scenario.blue_range)
           (Scenario.loaded
              (Scenario.chart_with [Scenario.bump; Scenario.rect_40x25]))
           (Scenario.chart_with [Scenario.bump; Scenario.rect_40x25])).
  reflexivity.
Defined.

(** ** Properties of the reference simplifier *)

Module ReferenceFacts.
Import Reference.

(** *** The first maximum *)








(** *** The recursion *)




(** *** The closed curve *)



(** *** The perimeter *)














End ReferenceFacts.



(** ** Properties of the conversion from integers to floats *)

Lemma digits2_pos_size (m : positive) : SpecFloat.digits2_pos m = Pos.size m.
Proof. induction m as [m IH|m IH|]; simpl; rewrite ?IH; reflexivity. Qed.

Lemma digits2_pos_iter_xO (m p : positive) :
  Z.pos (SpecFloat.digits2_pos (Pos.iter xO m p))
  = Z.pos (SpecFloat.digits2_pos m) + Z.pos p.
Proof.
  revert m. induction p as [|p IH] using Pos.peano_ind; intros m.
  - simpl. lia.
  - rewrite Pos.iter_succ. simpl SpecFloat.digits2_pos.
    rewrite Pos2Z.inj_succ, IH. lia.
Qed.

Lemma iter_xO_value (m p : positive) :
  Z.pos (Pos.iter xO m p) = Z.pos m * 2 ^ Z.pos p.
Proof.
  induction p as [|p IH] using Pos.peano_ind.
  - simpl. lia.
  - rewrite Pos.iter_succ, Pos2Z.inj_xO, IH, Pos2Z.inj_succ.
    rewrite Z.pow_succ_r by lia. ring.
Qed.

Lemma digits2_pos_small (m : positive) :
  Z.pos m < 2 ^ 53 → Z.pos (SpecFloat.digits2_pos m) <= 53.
Proof.
  intros Hm. rewrite digits2_pos_size.
  pose proof (Pos.size_le m) as Hle.
  destruct (Z.le_gt_cases (Z.pos (Pos.size m)) 53) as [H|H]; [exact H|].
  exfalso.
  assert (H54 : 2 ^ 54 <= 2 ^ Z.pos (Pos.size m))
    by (apply Z.pow_le_mono_r; lia).
  assert (Hpow : Z.pos (2 ^ Pos.size m) = 2 ^ Z.pos (Pos.size m)).
  { rewrite Pos2Z.inj_pow. reflexivity. }
  apply Pos2Z.pos_le_pos in Hle. rewrite Hpow in Hle.
  change (Z.pos m~0) with (2 * Z.pos m) in Hle.
  change (2 ^ 54) with (2 * 2 ^ 53) in H54. lia.
Qed.

(** Rounding a positive integer below 2^53 changes nothing: the float has
    the sign given, and its mantissa [m'] and exponent [e'] satisfy
    [m' * 2^e' = m]. *)
Lemma binary_round_small (s : bool) (m : positive) :
  Z.pos m < 2 ^ 53 →
  ∃ m' e',
    SpecFloat.binary_round FloatOps.prec FloatOps.emax s m 0
    = SpecFloat.S754_finite s m' e' ∧
    e' <= 0 ∧ Z.pos m' = Z.pos m * 2 ^ (- e').
Proof.
  intros Hm. pose proof (digits2_pos_small m Hm) as Hd.
  unfold SpecFloat.binary_round.
  set (d := Z.pos (SpecFloat.digits2_pos m)) in *.
  assert (Hfexp : SpecFloat.fexp FloatOps.prec FloatOps.emax (d + 0) = d - 53).
  { unfold SpecFloat.fexp, SpecFloat.emin, FloatOps.prec, FloatOps.emax. lia. }
  rewrite Hfexp.
  assert (Hd1 : 1 <= d) by (unfold d; lia).
  unfold SpecFloat.shl_align.
  destruct (d - 53 - 0) as [|p|p] eqn:Hp; [|lia|].
  - unfold SpecFloat.binary_round_aux, SpecFloat.shr_fexp.
    cbn [SpecFloat.Zdigits2 SpecFloat.shr_record_of_loc].
    fold d. rewrite Hfexp.
    replace (d - 53 - 0) with 0 by lia.
    cbn [SpecFloat.shr SpecFloat.shr_m SpecFloat.loc_of_shr_record
         SpecFloat.round_nearest_even SpecFloat.Zdigits2
         SpecFloat.shr_record_of_loc].
    fold d. rewrite Hfexp. replace (d - 53 - 0) with 0 by lia.
    cbn [SpecFloat.shr SpecFloat.shr_m].
    exists m, 0. split; [reflexivity|]. split; [lia|]. simpl. lia.
  - unfold SpecFloat.binary_round_aux, SpecFloat.shr_fexp.
    cbn [SpecFloat.Zdigits2 SpecFloat.shr_record_of_loc].
    rewrite digits2_pos_iter_xO. fold d.
    assert (Hfexp' : SpecFloat.fexp FloatOps.prec FloatOps.emax
                       (d + Z.pos p + (d - 53)) = d - 53).
    { unfold SpecFloat.fexp, SpecFloat.emin, FloatOps.prec, FloatOps.emax.
      lia. }
    rewrite Hfexp'. rewrite Z.sub_diag.
    cbn [SpecFloat.shr SpecFloat.shr_m SpecFloat.loc_of_shr_record
         SpecFloat.round_nearest_even SpecFloat.Zdigits2
         SpecFloat.shr_record_of_loc].
    rewrite digits2_pos_iter_xO. fold d. rewrite Hfexp', Z.sub_diag.
    cbn [SpecFloat.shr SpecFloat.shr_m].
    destruct (Z.leb_spec (d - 53) (FloatOps.emax - FloatOps.prec)) as [_|H];
      [|unfold FloatOps.emax, FloatOps.prec in H; lia].
    exists (Pos.iter xO m p), (d - 53). split; [reflexivity|].
    split; [lia|]. rewrite iter_xO_value. f_equal. f_equal. lia.
Qed.

(** An integer below 2^53 in absolute value is a float: the conversion
    raises nothing and is exact. *)
Lemma float_of_int_small (n : Z) :
  Z.abs n < 2 ^ 53 →
  ∃ a, float_of_int n = Ok a ∧
       (n = 0 → a = SpecFloat.S754_zero false) ∧
       (n ≠ 0 →
        ∃ m e, a = SpecFloat.S754_finite (n <? 0) m e ∧
               e <= 0 ∧ Z.pos m = Z.abs n * 2 ^ (- e)).
Proof.
  intros Hn. unfold float_of_int, SpecFloat.binary_normalize.
  destruct n as [|m|m].
  - eexists. split; [reflexivity|]. split; [reflexivity|].
    intros H. contradiction.
  - destruct (binary_round_small false m Hn) as (m' & e' & -> & He & Hm).
    eexists. split; [reflexivity|]. split; [discriminate|]. eauto.
  - destruct (binary_round_small true m Hn) as (m' & e' & -> & He & Hm).
    eexists. split; [reflexivity|]. split; [discriminate|]. eauto.
Qed.

(** ** Properties of the geographic mapping *)

Lemma floats_of_pixels_Forall2 pixel_coords fxy :
  floats_of_pixels pixel_coords = Ok fxy →
  Forall2 (fun xy fxy => float_of_int xy.1 = Ok fxy.1 ∧
                         float_of_int xy.2 = Ok fxy.2)
    pixel_coords fxy.
Proof.
  revert fxy. induction pixel_coords as [|[x y] l IH]; intros fxy; simpl.
  - intros [= <-]. constructor.
  - destruct (float_of_int y) as [fy|e] eqn:Ey; [|discriminate].
    destruct (float_of_int x) as [fx|e] eqn:Ex; [|discriminate].
    destruct (floats_of_pixels l) as [fl|e]; [|discriminate].
    simpl. intros [= <-].
    constructor; [split; assumption | apply IH; reflexivity].
Qed.

Lemma floats_of_pixels_small pixel_coords :
  Forall (fun xy => Z.abs xy.1 < 2 ^ 53 ∧ Z.abs xy.2 < 2 ^ 53) pixel_coords →
  ∃ fxy, floats_of_pixels pixel_coords = Ok fxy.
Proof.
  induction 1 as [|[x y] l [Hx Hy] _ [fl IH]]; simpl; [eauto|].
  destruct (float_of_int_small x Hx) as (fx & -> & _).
  destruct (float_of_int_small y Hy) as (fy & -> & _).
  rewrite IH. simpl. eauto.
Qed.

Section GeoMapperFacts.
Variables (self : ChartPreprocessor) (bounds : chart_bounds).

(** The loop of [map_pixel_to_latlon] converts the pixels and maps the
    loop body over them. *)
Lemma map_pixel_to_latlon_loop (fh fw : float64) pixel_coords acc :
  fold_left
    (fun acc '(x, y) =>
       let! latlon_coords := acc in
       let! lat_offset :=
         int_mul_float y
           (float_div (float_sub (north bounds) (south bounds)) fh) in
       let lat := float_sub (north bounds) lat_offset in
       let! lon_offset :=
         int_mul_float x
           (float_div (float_sub (east bounds) (west bounds)) fw) in
       let lon := float_add (west bounds) lon_offset in
       Ok (latlon_coords ++ [(lat, lon)]))
    pixel_coords acc
  = let! latlon_coords := acc in
    let! fxy := floats_of_pixels pixel_coords in
    Ok (latlon_coords ++ (latlon_of bounds fh fw <$> fxy)).
Proof.
  revert acc. induction pixel_coords as [|[x y] l IH]; intros acc.
  - destruct acc as [a|e]; simpl; [rewrite app_nil_r|]; reflexivity.
  - cbn [fold_left floats_of_pixels]. rewrite IH.
    destruct acc as [a|e]; [|reflexivity]. unfold int_mul_float. simpl.
    destruct (float_of_int y) as [fy|e]; [|reflexivity].
    destruct (float_of_int x) as [fx|e]; [|reflexivity].
    simpl. destruct (floats_of_pixels l) as [fl|e]; [|reflexivity].
    simpl. rewrite <- app_assoc. reflexivity.
Qed.

(** The steps of [map_pixel_to_latlon] in the order in which they can
    fail. *)
Lemma map_pixel_to_latlon_steps pixel_coords :
  map_pixel_to_latlon self pixel_coords bounds
  = let! fh := float_of_int (shape self).1 in
    match fh with
    | SpecFloat.S754_zero _ => Raise ZeroDivisionError
    | _ =>
        let! fw := float_of_int (shape self).2 in
        match fw with
        | SpecFloat.S754_zero _ => Raise ZeroDivisionError
        | _ =>
            let! fxy := floats_of_pixels pixel_coords in
            let! _ := dump_mapping_info self in
            Ok (latlon_of bounds fh fw <$> fxy)
        end
    end.
Proof.
  unfold map_pixel_to_latlon, float_truediv_int.
  destruct (shape self) as [height width]. cbn [fst snd].
  destruct (float_of_int height) as [fh|e]; [|reflexivity].
  destruct (float_of_int width) as [fw|e];
    [|destruct fh; reflexivity].
  destruct fh; try reflexivity;
    destruct fw; try reflexivity;
    cbn [bind]; rewrite map_pixel_to_latlon_loop; cbn [bind];
    destruct (floats_of_pixels pixel_coords); reflexivity.
Qed.

Lemma map_pixel_to_latlon_inv pixel_coords latlon_coords :
  map_pixel_to_latlon self pixel_coords bounds = Ok latlon_coords →
  ∃ fh fw fxy,
    float_of_int (shape self).1 = Ok fh ∧
    float_of_int (shape self).2 = Ok fw ∧
    floats_of_pixels pixel_coords = Ok fxy ∧
    info_path_writable self = true ∧
    latlon_coords = latlon_of bounds fh fw <$> fxy.
Proof.
  rewrite map_pixel_to_latlon_steps. unfold dump_mapping_info.
  destruct (float_of_int (shape self).1) as [fh|e]; [|discriminate].
  destruct (float_of_int (shape self).2) as [fw|e];
    [|destruct fh; discriminate].
  destruct (floats_of_pixels pixel_coords) as [fxy|e];
    [|destruct fh; try discriminate; destruct fw; discriminate].
  destruct (info_path_writable self);
    [|destruct fh; try discriminate; destruct fw; discriminate].
  intros H. exists fh, fw, fxy.
  repeat split; try reflexivity.
  destruct fh; try discriminate; destruct fw; try discriminate;
    simpl in H; congruence.
Qed.

End GeoMapperFacts.

(** Whether the mapping succeeds, and how it fails, is the same for all
    bounds. *)
Lemma map_pixel_to_latlon_outcome self pixel_coords bounds bounds' :
  same_outcome (map_pixel_to_latlon self pixel_coords bounds)
               (map_pixel_to_latlon self pixel_coords bounds').
Proof.
  rewrite !map_pixel_to_latlon_steps. unfold dump_mapping_info.
  destruct (float_of_int (shape self).1) as [fh|e]; [|reflexivity].
  destruct (float_of_int (shape self).2) as [fw|e];
    [|destruct fh; reflexivity].
  destruct (floats_of_pixels pixel_coords) as [fxy|e];
    [|destruct fh; try reflexivity; destruct fw; reflexivity].
  destruct (info_path_writable self);
    destruct fh; try reflexivity; destruct fw; reflexivity.
Qed.

(** A finite float equals itself. *)
Lemma float_compare_refl (s : bool) (m : positive) (e : Z) :
  float_eqb (SpecFloat.S754_finite s m e) (SpecFloat.S754_finite s m e) = true.
Proof.
  unfold float_eqb, SpecFloat.SFeqb, SpecFloat.SFcompare.
  rewrite Z.compare_refl, Pos.compare_cont_refl. destruct s; reflexivity.
Qed.

(** Subtracting or adding the product of zero and a scale factor gives
    back the first operand, unless the result is NaN. *)
Lemma float_sub_zero_offset (a scale : float64) :
  let r := float_sub a (float_mul (SpecFloat.S754_zero false) scale) in
  is_nan r = false → float_eqb r a = true.
Proof.
  destruct a as [sa|sa| |sa ma ea], scale as [ss|ss| |ss ms es];
    simpl; try discriminate; intros _;
    try (destruct sa; reflexivity);
    try (destruct sa, ss; reflexivity);
    apply float_compare_refl.
Qed.

Lemma float_add_zero_offset (a scale : float64) :
  let r := float_add a (float_mul (SpecFloat.S754_zero false) scale) in
  is_nan r = false → float_eqb r a = true.
Proof.
  destruct a as [sa|sa| |sa ma ea], scale as [ss|ss| |ss ms es];
    simpl; try discriminate; intros _;
    try (destruct sa; reflexivity);
    try (destruct sa, ss; reflexivity);
    apply float_compare_refl.
Qed.

(** The scenario of the specification: bounds 45.2 / 44.5 / -0.3 / -1.0 on
    a 1000 x 800 image send pixel (500, 400) to (44.85, -0.65). *)
Example bordeaux_centre :
  map_pixel_to_latlon Scenario.chart_1000x800 [(500, 400)] Scenario.bordeaux
  = Ok [(literal 44.85, literal (-0.65))].
Proof. vm_compute. reflexivity. Qed.

(** A missing image height, a pixel beyond the range of floats and a side
    file that cannot be written make the mapping fail. *)
Example empty_image_fails :
  map_pixel_to_latlon {| shape := (0, 1000); info_path_writable := true |}
    [(500, 400)] Scenario.bordeaux
  = Raise ZeroDivisionError.
Proof. reflexivity. Qed.

Example huge_pixel_fails :
  map_pixel_to_latlon Scenario.chart_1000x800 [(10 ^ 400, 0)] Scenario.bordeaux
  = Raise OverflowError.
Proof. vm_compute. reflexivity. Qed.

Example unwritable_folder_fails :
  map_pixel_to_latlon {| shape := (800, 1000); info_path_writable := false |}
    [(500, 400)] Scenario.bordeaux
  = Raise OSError.
Proof. vm_compute. reflexivity. Qed.

(** C2 (as stated, refuted). With north below south and east equal to
    west the mapping does not fail: it returns one coordinate pair. *)
Lemma degenerate_bounds_are_accepted :
  float_leb (north Scenario.degenerate_bounds)
            (south Scenario.degenerate_bounds) = true ∧
  float_eqb (east Scenario.degenerate_bounds)
            (west Scenario.degenerate_bounds) = true ∧
  map_pixel_to_latlon Scenario.chart_1000x800 [(500, 400)]
    Scenario.degenerate_bounds
  = Ok [(literal 44.85, literal (-1.0))] ∧
  map_pixel_to_latlon Scenario.chart_1000x800 [(500, 400)]
    Scenario.degenerate_bounds
  ≠ Raise InvalidBoundsError.
Proof.
  split; [vm_compute; reflexivity|].
  split; [vm_compute; reflexivity|].
  split; [vm_compute; reflexivity|].
  intros H. vm_compute in H. discriminate H.
Qed.

(** C2 (amended). The mapping never raises an invalid-bounds condition:
    the bounds are not inspected, and whether the mapping succeeds or which
    exception it raises is the same for all bounds, so bounds with north
    not above south or east equal to west are handled like any others;
    whenever it succeeds it returns exactly one (lat, lon) pair per input
    pixel, in input order. *)
Theorem mapping_never_rejects_bounds
    (self : ChartPreprocessor) (pixel_coords : list (Z * Z))
    (bounds : chart_bounds) :
  map_pixel_to_latlon self pixel_coords bounds ≠ Raise InvalidBoundsError ∧
  (∀ bounds',
     same_outcome (map_pixel_to_latlon self pixel_coords bounds)
                  (map_pixel_to_latlon self pixel_coords bounds')) ∧
  (∀ latlon_coords,
     map_pixel_to_latlon self pixel_coords bounds = Ok latlon_coords →
     length latlon_coords = length pixel_coords ∧
     ∃ fh fw,
       float_of_int (shape self).1 = Ok fh ∧
       float_of_int (shape self).2 = Ok fw ∧
       ∀ i x y, pixel_coords !! i = Some (x, y) →
         ∃ fx fy,
           float_of_int x = Ok fx ∧ float_of_int y = Ok fy ∧
           latlon_coords !! i = Some (latlon_of bounds fh fw (fx, fy))).
Proof.
  split; [|split].
  - rewrite map_pixel_to_latlon_steps. unfold dump_mapping_info.
    destruct (float_of_int (shape self).1) as [fh|e] eqn:Eh.
    + destruct (float_of_int (shape self).2) as [fw|e] eqn:Ew.
      * destruct (floats_of_pixels pixel_coords) as [fxy|e] eqn:Ep.
        -- destruct (info_path_writable self);
             destruct fh; try discriminate; destruct fw; discriminate.
        -- assert (e = OverflowError) as ->.
           { clear -Ep. revert e Ep.
             induction pixel_coords as [|[x y] l IH]; intros e; simpl;
               [discriminate|].
             unfold float_of_int at 1 2.
             destruct (SpecFloat.binary_normalize _ _ y 0 false);
               try (intros [= <-]; reflexivity);
               destruct (SpecFloat.binary_normalize _ _ x 0 false);
               try (intros [= <-]; reflexivity);
               destruct (floats_of_pixels l); try discriminate;
               simpl; intros [= <-]; apply IH; reflexivity. }
           destruct fh; try discriminate; destruct fw; discriminate.
      * assert (e = OverflowError) as ->.
        { unfold float_of_int in Ew.
          destruct (SpecFloat.binary_normalize _ _ _ 0 false);
            congruence. }
        destruct fh; discriminate.
    + assert (e = OverflowError) as ->.
      { unfold float_of_int in Eh.
        destruct (SpecFloat.binary_normalize _ _ _ 0 false); congruence. }
      discriminate.
  - intros bounds'. apply map_pixel_to_latlon_outcome.
  - intros latlon_coords Hmap.
    apply map_pixel_to_latlon_inv
      in Hmap as (fh & fw & fxy & Hh & Hw & Hp & _ & ->).
    apply floats_of_pixels_Forall2 in Hp.
    split; [rewrite length_fmap; symmetry; eapply Forall2_length; exact Hp|].
    exists fh, fw. split; [exact Hh|]. split; [exact Hw|].
    intros i x y Hi.
    destruct (Forall2_lookup_l _ _ _ _ _ Hp Hi) as ([fx fy] & Hf & Hx & Hy).
    exists fx, fy. split; [exact Hx|]. split; [exact Hy|].
    rewrite list_lookup_fmap, Hf. reflexivity.
Qed.

Lemma mapping_never_rejects_bounds_witness :
  length [(literal 44.5875, literal (-1.0)); (literal 44.7625, literal (-1.0))]
  = length [(100, 100); (500, 300)] ∧
  ∃ fh fw,
    float_of_int (shape Scenario.chart_1000x800).1 = Ok fh ∧
    float_of_int (shape Scenario.chart_1000x800).2 = Ok fw ∧
    ∀ i x y, [(100, 100); (500, 300)] !! i = Some (x, y) →
      ∃ fx fy,
        float_of_int x = Ok fx ∧ float_of_int y = Ok fy ∧
        [(literal 44.5875, literal (-1.0)); (literal 44.7625, literal (-1.0))]
          !! i
        = Some (latlon_of Scenario.degenerate_bounds fh fw (fx, fy)).
Proof.
  apply (proj2 (proj2 (mapping_never_rejects_bounds Scenario.chart_1000x800
                         [(100, 100); (500, 300)]
                         Scenario.degenerate_bounds))).
  vm_compute. reflexivity.
Defined.

(** C4 (as stated, refuted). In the scenario of the specification the
    pixel (width, height) is not mapped to (south, east): its longitude is
    -0.30000000000000004, short of east = -0.3.  And the longitude
    computed for pixel (100, 100), -0.93, is not the one of the formula as
    written, which multiplies before it divides and gives
    -0.9299999999999999; the latitudes agree. *)
Lemma far_corner_is_not_mapped_to_east :
  map_pixel_to_latlon Scenario.chart_1000x800 [(1000, 800)] Scenario.bordeaux
  = Ok [(literal 44.5, literal (-0.30000000000000004))] ∧
  float_eqb (literal (-0.30000000000000004)) (east Scenario.bordeaux) = false ∧
  float_ltb (literal (-0.30000000000000004)) (east Scenario.bordeaux) = true ∧
  ∃ f100 f800 f1000,
    float_of_int 100 = Ok f100 ∧ float_of_int 800 = Ok f800 ∧
    float_of_int 1000 = Ok f1000 ∧
    map_pixel_to_latlon Scenario.chart_1000x800 [(100, 100)] Scenario.bordeaux
    = Ok [(literal 45.112500000000004, literal (-0.93))] ∧
    latitude_of Scenario.bordeaux f800 f100 = literal 45.112500000000004 ∧
    longitude_of Scenario.bordeaux f1000 f100
    = literal (-0.9299999999999999) ∧
    float_eqb (literal (-0.93)) (literal (-0.9299999999999999)) = false.
Proof.
  split; [vm_compute; reflexivity|].
  split; [vm_compute; reflexivity|].
  split; [vm_compute; reflexivity|].
  do 3 eexists.
  split; [vm_compute; reflexivity|].
  split; [vm_compute; reflexivity|].
  split; [vm_compute; reflexivity|].
  split; [vm_compute; reflexivity|].
  split; [vm_compute; reflexivity|].
  split; vm_compute; reflexivity.
Qed.

(** C4 (amended). For an image of positive width and height whose side
    file can be written, and pixel coordinates and image size below 2^53
    in absolute value, the mapping returns for every input pixel [(x, y)]
    the floats [lat = north - y * ((north - south) / height)] and
    [lon = west + x * ((east - west) / width)], every operation being the
    binary64 operation, which rounds, and the scale factor being computed
    first.  Pixel (0, 0) is mapped to (north, west) whenever the computed
    values are not NaN. *)
Theorem mapping_is_rounded_interpolation
    (height width : Z) (pixel_coords : list (Z * Z)) (bounds : chart_bounds) :
  0 < height < 2 ^ 53 → 0 < width < 2 ^ 53 →
  Forall (fun xy => Z.abs xy.1 < 2 ^ 53 ∧ Z.abs xy.2 < 2 ^ 53) pixel_coords →
  let self := {| shape := (height, width); info_path_writable := true |} in
  ∃ fh fw latlon_coords,
    float_of_int height = Ok fh ∧ float_of_int width = Ok fw ∧
    map_pixel_to_latlon self pixel_coords bounds = Ok latlon_coords ∧
    Forall2
      (fun '(x, y) '(lat, lon) =>
         ∃ fx fy,
           float_of_int x = Ok fx ∧ float_of_int y = Ok fy ∧
           lat = float_sub (north bounds)
                   (float_mul fy
                      (float_div (float_sub (north bounds) (south bounds))
                         fh)) ∧
           lon = float_add (west bounds)
                   (float_mul fx
                      (float_div (float_sub (east bounds) (west bounds))
                         fw)))
      pixel_coords latlon_coords ∧
    ∀ i lat lon,
      pixel_coords !! i = Some (0, 0) →
      latlon_coords !! i = Some (lat, lon) →
      (is_nan lat = false → float_eqb lat (north bounds) = true) ∧
      (is_nan lon = false → float_eqb lon (west bounds) = true).
Proof.
  intros Hh Hw Hpx self.
  destruct (float_of_int_small height) as (fh & Eh & _ & Hfh); [lia|].
  destruct (float_of_int_small width) as (fw & Ew & _ & Hfw); [lia|].
  destruct Hfh as (mh & eh & -> & _); [lia|].
  destruct Hfw as (mw & ew & -> & _); [lia|].
  destruct (floats_of_pixels_small pixel_coords Hpx) as [fxy Ep].
  eexists _, _, _. split; [exact Eh|]. split; [exact Ew|].
  assert (Hmap : map_pixel_to_latlon self pixel_coords bounds
                 = Ok (latlon_of bounds
                         (SpecFloat.S754_finite (height <? 0) mh eh)
                         (SpecFloat.S754_finite (width <? 0) mw ew) <$> fxy)).
  { rewrite map_pixel_to_latlon_steps. cbn [self shape fst snd].
    rewrite Eh. cbn [bind]. rewrite Ew. cbn [bind]. rewrite Ep. reflexivity. }
  split; [exact Hmap|].
  apply floats_of_pixels_Forall2 in Ep.
  split.
  - clear Hmap Hpx. induction Ep as [|[x y] [fx fy] l fl [Hx Hy] _ IH];
      [constructor|].
    rewrite fmap_cons. constructor; [|exact IH].
    exists fx, fy. split; [exact Hx|]. split; [exact Hy|].
    split; reflexivity.
  - intros i lat lon Hi Hll.
    destruct (Forall2_lookup_l _ _ _ _ _ Ep Hi) as ([fx fy] & Hf & Hx & Hy).
    rewrite list_lookup_fmap, Hf in Hll. injection Hll as <- <-.
    cbn [fst snd] in Hx, Hy.
    change (float_of_int 0) with (Ok (SpecFloat.S754_zero false)) in Hx, Hy.
    injection Hx as <-. injection Hy as <-. cbn [fst snd]. split.
    + apply float_sub_zero_offset.
    + apply float_add_zero_offset.
Qed.

Lemma mapping_is_rounded_interpolation_witness :
  ∃ fh fw latlon_coords,
    float_of_int 800 = Ok fh ∧ float_of_int 1000 = Ok fw ∧
    map_pixel_to_latlon Scenario.chart_1000x800 [(0, 0); (500, 400)]
      Scenario.bordeaux = Ok latlon_coords ∧
    Forall2
      (fun '(x, y) '(lat, lon) =>
         ∃ fx fy,
           float_of_int x = Ok fx ∧ float_of_int y = Ok fy ∧
           lat = float_sub (north Scenario.bordeaux)
                   (float_mul fy
                      (float_div (float_sub (north Scenario.bordeaux)
                                    (south Scenario.bordeaux))
                         fh)) ∧
           lon = float_add (west Scenario.bordeaux)
                   (float_mul fx
                      (float_div (float_sub (east Scenario.bordeaux)
                                    (west Scenario.bordeaux))
                         fw)))
      [(0, 0); (500, 400)] latlon_coords ∧
    ∀ i lat lon,
      [(0, 0); (500, 400)] !! i = Some (0, 0) →
      latlon_coords !! i = Some (lat, lon) →
      (is_nan lat = false → float_eqb lat (north Scenario.bordeaux) = true) ∧
      (is_nan lon = false → float_eqb lon (west Scenario.bordeaux) = true).
Proof.
  apply (mapping_is_rounded_interpolation 800 1000 [(0, 0); (500, 400)]
           Scenario.bordeaux).
  - lia.
  - lia.
  - repeat constructor; simpl; lia.
Defined.

(** ** Properties of the centroid *)

Lemma py_sum_fold_right (l : list Z) (a : Z) :
  fold_left Z.add l a = a + fold_right Z.add 0 l.
Proof.
  revert a. induction l as [|x l IH]; intros a; simpl; [lia|].
  rewrite IH. lia.
Qed.

Lemma inject_py_sum (l : list Z) :
  (inject_Z (py_sum l) == fold_right (fun x acc => inject_Z x + acc) 0 l)%Q.
Proof.
  unfold py_sum. rewrite py_sum_fold_right, Z.add_0_l.
  induction l as [|x l IH]; simpl; [reflexivity|].
  rewrite inject_Z_plus, IH. reflexivity.
Qed.

(** C7. For every non-empty vertex list the centroid is the unweighted
    arithmetic mean of the x-coordinates and of the y-coordinates; the
    empty list gives (0, 0); the centroid recorded in a polygon record is
    this function of its vertex list; and it is not the area-weighted
    centroid (they differ for a rectangle with an additional vertex in the
    middle of one edge). *)
Theorem centroid_is_unweighted_vertex_mean :
  (∀ (v : Z * Z) (vs : list (Z * Z)),
     (fst (_calculate_centroid (v :: vs))
      == arithmetic_mean (map fst (v :: vs)))%Q ∧
     (snd (_calculate_centroid (v :: vs))
      == arithmetic_mean (map snd (v :: vs)))%Q) ∧
  _calculate_centroid [] = (0%Q, 0%Q) ∧
  (∀ (cv : OpenCV) (i : nat) (c approx_polygon : contour),
     centroid (make_polygon_data i c approx_polygon) =
     _calculate_centroid (vertices (make_polygon_data i c approx_polygon))) ∧
  ¬ (fst (_calculate_centroid Scenario.rectangle_with_midpoint)
     == fst (area_weighted_centroid Scenario.rectangle_with_midpoint))%Q.
Proof.
  split; [|split; [reflexivity|split]].
  - intros v vs. unfold _calculate_centroid, arithmetic_mean.
    cbv zeta. cbn [fst snd].
    split; (apply Qdiv_comp; [apply inject_py_sum | reflexivity]).
  - intros cv i c approx_polygon. unfold make_polygon_data.
    destruct (boundingRect c) as [[[rx ry] rw] rh]. reflexivity.
  - intros H. vm_compute in H. discriminate H.
Qed.

(** ** Facts about the export loops *)

Lemma fold_left_app_bind {A B} (step : list B → A → list B) (f : A → list B)
    (l : list A) (acc : list B) :
  (∀ acc x, step acc x = acc ++ f x) →
  fold_left step l acc = acc ++ (l ≫= f).
Proof.
  intros Hstep. revert acc. induction l as [|x l IH]; intros acc; simpl.
  - symmetry. apply app_nil_r.
  - rewrite IH, Hstep, <- app_assoc. reflexivity.
Qed.

Lemma fold_left_app_fmap {A B} (step : list B → A → list B) (f : A → B)
    (l : list A) (acc : list B) :
  (∀ acc x, step acc x = acc ++ [f x]) →
  fold_left step l acc = acc ++ (f <$> l).
Proof.
  intros Hstep. revert acc. induction l as [|x l IH]; intros acc; simpl.
  - symmetry. apply app_nil_r.
  - rewrite IH, Hstep, <- app_assoc. reflexivity.
Qed.

Lemma fmap_bind_list {A B C} (f : B → C) (g : A → list B) (l : list A) :
  f <$> (l ≫= g) = l ≫= (fun x => f <$> g x).
Proof.
  induction l as [|x l IH]; [reflexivity|].
  rewrite !bind_cons, fmap_app, IH. reflexivity.
Qed.

Lemma lookup_enumerate_from {A} (l : list A) (start i : nat) :
  enumerate_from start l !! i = (fun x => ((start + i)%nat, x)) <$> l !! i.
Proof.
  revert start i. induction l as [|y l IH]; intros start [|i]; simpl.
  - reflexivity.
  - reflexivity.
  - f_equal. f_equal. lia.
  - rewrite IH. destruct (l !! i); simpl; [|reflexivity].
    f_equal. f_equal. lia.
Qed.

Lemma length_enumerate_from {A} (l : list A) (start : nat) :
  length (enumerate_from start l) = length l.
Proof.
  revert start. induction l as [|y l IH]; intros start; simpl;
    [reflexivity | f_equal; apply IH].
Qed.

Section ExportFacts.
Context `{cv : OpenCV}.
Implicit Types (self : detector) (polygons : list polygon_data).

Lemma get_vertex_coordinates_list_bind self :
  get_vertex_coordinates_list self =
  map_to_list (vertex_data self) ≫=
    (fun kp => kp.2 ≫= coordinates_of_polygon kp.1).
Proof.
  unfold get_vertex_coordinates_list.
  rewrite (fold_left_app_bind _
             (fun kp : string * list polygon_data =>
                kp.2 ≫= coordinates_of_polygon kp.1)); [reflexivity|].
  intros acc [k polygons]. simpl.
  apply fold_left_app_bind. intros acc' polygon.
  unfold coordinates_of_polygon.
  apply fold_left_app_fmap. intros acc'' [i [x y]]. reflexivity.
Qed.

Lemma export_vertices_csv_bind self :
  export_vertices_csv self =
  CsvHeader ["Airspace_Type"; "Polygon_ID"; "Vertex_Index"; "X"; "Y";
             "Area"; "Perimeter"]%string
  :: (CsvData <$>
        (map_to_list (vertex_data self) ≫=
           (fun kp => kp.2 ≫= rows_of_polygon kp.1))).
Proof.
  unfold export_vertices_csv.
  rewrite (fold_left_app_bind _
             (fun kp : string * list polygon_data =>
                CsvData <$> (kp.2 ≫= rows_of_polygon kp.1))).
  - rewrite fmap_bind_list. reflexivity.
  - intros acc [k polygons]. simpl.
    rewrite (fold_left_app_bind _
               (fun polygon => CsvData <$> rows_of_polygon k polygon)).
    + rewrite fmap_bind_list. reflexivity.
    + intros acc' polygon. unfold rows_of_polygon.
      rewrite <- list_fmap_compose.
      apply fold_left_app_fmap. intros acc'' [i [x y]]. reflexivity.
Qed.

Lemma row_coordinate_rows k polygon :
  row_coordinate <$> rows_of_polygon k polygon = coordinates_of_polygon k polygon.
Proof.
  unfold rows_of_polygon, coordinates_of_polygon.
  rewrite <- list_fmap_compose. reflexivity.
Qed.

End ExportFacts.

(** ** Properties of the exports *)

Lemma coordinates_list_origin
    {cv : OpenCV} (self : detector) (airspace_type : string)
    (id vertex_index : nat) (x y : Z) :
  (airspace_type, id, vertex_index, x, y) ∈ get_vertex_coordinates_list self →
  ∃ polygons p i,
    vertex_data self !! airspace_type = Some polygons ∧
    p ∈ polygons ∧
    polygon_id p = id ∧
    vertex_index = (i + 1)%nat ∧
    vertices p !! i = Some (x, y).
Proof.
  rewrite get_vertex_coordinates_list_bind, list_elem_of_bind.
  intros ([k polygons] & Hin & Hk). simpl in Hin.
  apply elem_of_map_to_list in Hk.
  apply list_elem_of_bind in Hin as (p & Hin & Hp).
  unfold coordinates_of_polygon in Hin.
  apply list_elem_of_fmap in Hin as ([i [x' y']] & Heq & Hi).
  apply elem_of_enumerate_from in Hi as (j & -> & Hj).
  simpl in Heq. injection Heq as Hk' Hid Hvi Hx Hy. subst.
  exists polygons, p, j. auto.
Qed.

(** X1. A tuple is in the list returned by [get_vertex_coordinates_list]
    exactly when it names a class of the collection, the id of a polygon of
    that class, and a vertex of that polygon together with its 1-based
    position: no vertex is left out and none is invented. *)
Theorem coordinates_list_lists_every_vertex
    {cv : OpenCV} (self : detector) (airspace_type : string)
    (id vertex_index : nat) (x y : Z) :
  (airspace_type, id, vertex_index, x, y) ∈ get_vertex_coordinates_list self ↔
  ∃ polygons p i,
    vertex_data self !! airspace_type = Some polygons ∧
    p ∈ polygons ∧
    polygon_id p = id ∧
    vertex_index = (i + 1)%nat ∧
    vertices p !! i = Some (x, y).
Proof.
  split; [apply coordinates_list_origin|].
  intros (polygons & p & i & Hk & Hp & <- & -> & Hi).
  rewrite get_vertex_coordinates_list_bind. apply list_elem_of_bind.
  exists (airspace_type, polygons). split.
  - simpl. apply list_elem_of_bind. exists p. split; [|exact Hp].
    unfold coordinates_of_polygon. apply list_elem_of_fmap.
    exists (i, (x, y)). split; [reflexivity|].
    apply elem_of_enumerate_from. exists i. auto.
  - apply elem_of_map_to_list. exact Hk.
Qed.

(** X2. [export_vertices_csv] writes the header and then one row per
    vertex; without the area and perimeter columns the rows are the list of
    [get_vertex_coordinates_list], in the same order; and the area and
    perimeter of a row are those of a polygon of the row's class that has
    the row's id. *)
Theorem csv_rows_extend_coordinates_list {cv : OpenCV} (self : detector) :
  ∃ rows : list csv_row,
    export_vertices_csv self =
      CsvHeader ["Airspace_Type"; "Polygon_ID"; "Vertex_Index"; "X"; "Y";
                 "Area"; "Perimeter"]%string
      :: (CsvData <$> rows) ∧
    row_coordinate <$> rows = get_vertex_coordinates_list self ∧
    ∀ airspace_type id vertex_index x y a per,
      (airspace_type, id, vertex_index, x, y, a, per) ∈ rows →
      ∃ polygons p,
        vertex_data self !! airspace_type = Some polygons ∧
        p ∈ polygons ∧ polygon_id p = id ∧
        area p = a ∧ perimeter p = per.
Proof.
  eexists. split; [apply export_vertices_csv_bind|]. split.
  - rewrite get_vertex_coordinates_list_bind, fmap_bind_list.
    apply list_bind_ext; [|reflexivity]. intros [k polygons]. simpl.
    rewrite fmap_bind_list.
    apply list_bind_ext; [|reflexivity]. intros p.
    apply row_coordinate_rows.
  - intros k id vi x y a per Hin.
    apply list_elem_of_bind in Hin as ([k' polygons] & Hin & Hk).
    apply elem_of_map_to_list in Hk. simpl in Hin.
    apply list_elem_of_bind in Hin as (p & Hin & Hp).
    unfold rows_of_polygon in Hin.
    apply list_elem_of_fmap in Hin as ([i [x' y']] & Heq & _).
    simpl in Heq. injection Heq as Hk' Hid Hvi Hx Hy Ha Hper. subst.
    exists polygons, p. auto.
Qed.

(** ** Properties of the detection pipeline *)

Section PipelineFacts.
Context `{cv : OpenCV}.

Lemma area_make i c approx :
  area (make_polygon_data i c approx) = contourArea c.
Proof.
  unfold make_polygon_data. destruct (boundingRect c) as [[[rx ry] rw] rh].
  reflexivity.
Qed.

Lemma approximate_polygons_fmap contours ef :
  approximate_polygons contours ef =
  (fun c => approxPolyDP c (ef * arcLength c)%Q) <$> contours.
Proof.
  unfold approximate_polygons.
  rewrite (fold_left_app_fmap _
             (fun c => approxPolyDP c (ef * arcLength c)%Q));
    [reflexivity|].
  intros acc c. reflexivity.
Qed.

Lemma detect_inv color_ranges (self self' : detector) :
  detect_airspace_areas color_ranges self = Ok self' →
  ∃ image,
    original_image self = Some image ∧
    original_image self' = Some image ∧
    vertex_data self' = vertex_data self ∧
    ∀ k, airspace_polygons self' !! k =
         (fun lu : hsv * hsv =>
            detect_class (cvtColor_BGR2HSV image) lu.1 lu.2)
           <$> default default_color_ranges color_ranges !! k.
Proof.
  unfold detect_airspace_areas.
  destruct (original_image self) as [image|] eqn:Himg; [|discriminate].
  intros [= <-]. exists image. simpl.
  split; [reflexivity|]. split; [reflexivity|]. split; [reflexivity|].
  intros k. apply detect_lookup.
Qed.

End PipelineFacts.

(** X3. [approximate_polygons] returns the approximation of every contour,
    in order and without dropping any; the vertex lists recorded by the
    inner loop of [extract_polygon_vertices] are, in the same order, those
    of these approximations that have at least [min_vertices] points. *)
Theorem extraction_keeps_the_long_approximations
    {cv : OpenCV} (contours : list contour) (epsilon_factor : Q)
    (min_vertices : Z) :
  approximate_polygons contours epsilon_factor =
    (fun c => approxPolyDP c (epsilon_factor * arcLength c)%Q) <$> contours ∧
  length (approximate_polygons contours epsilon_factor) = length contours ∧
  vertices <$> extract_polygons epsilon_factor min_vertices contours =
    List.filter (fun approx => Z.of_nat (length approx) >=? min_vertices)
      (approximate_polygons contours epsilon_factor).
Proof.
  rewrite approximate_polygons_fmap. split; [reflexivity|].
  split; [apply length_fmap|].
  rewrite extract_polygons_omap. unfold enumerate. generalize 0%nat.
  induction contours as [|c l IH]; intros start; simpl; [reflexivity|].
  unfold accepted at 1. simpl.
  destruct (_ >=? _); simpl; rewrite IH; [|reflexivity].
  rewrite vertices_make. reflexivity.
Qed.

(** X4. After [detect_airspace_areas] followed by
    [extract_polygon_vertices], whatever their parameters, the area
    recorded in every polygon record is strictly greater than 1000. *)
Theorem pipeline_areas_exceed_min_area
    {cv : OpenCV} (color_ranges : option (gmap string (hsv * hsv)))
    (epsilon_factor : Q) (min_vertices : Z) (self self' : detector)
    (airspace_type : string) (polygons : list polygon_data) (j : nat)
    (p : polygon_data) :
  detect_airspace_areas color_ranges self = Ok self' →
  vertex_data (extract_polygon_vertices epsilon_factor min_vertices self')
    !! airspace_type = Some polygons →
  polygons !! j = Some p →
  (1000 < area p)%Q.
Proof.
  intros Hdet Hk Hj.
  apply detect_inv in Hdet as (image & _ & _ & _ & Hstored).
  rewrite extract_lookup, Hstored in Hk.
  destruct (default default_color_ranges color_ranges !! airspace_type)
    as [[lower upper]|]; simpl in Hk; [|discriminate].
  destruct (detect_class _ lower upper) as [|c0 l] eqn:Hcls; [discriminate|].
  injection Hk as <-.
  apply extract_polygons_origin in Hj as (i & c & Hi & Hacc).
  apply accepted_Some in Hacc as [-> _]. rewrite area_make.
  assert (Hin : c ∈ detect_class (cvtColor_BGR2HSV image) lower upper).
  { rewrite Hcls. apply list_elem_of_lookup. eauto. }
  rewrite detect_class_filter in Hin.
  apply elem_of_filter_contours in Hin as [_ Hgt]. exact Hgt.
Qed.

Lemma pipeline_areas_exceed_min_area_witness :
  (1000 < area Scenario.bump_polygon)%Q.
Proof.
  apply (pipeline_areas_exceed_min_area (cv := Reference.cv)
           (Some Scenario.blue_range) 0.02%Q 3
           (Scenario.loaded
              (Scenario.chart_with [Scenario.bump; Scenario.rect_40x25]))
           {| original_image :=
                Some (Scenario.chart_with [Scenario.bump; Scenario.rect_40x25]);
              airspace_polygons := {[ Scenario.airspace_a := [Scenario.bump] ]};
              vertex_data := ∅ |}
           Scenario.airspace_a [Scenario.bump_polygon] 0 Scenario.bump_polygon).
  - reflexivity.
  - vm_compute. reflexivity.
  - reflexivity.
Defined.

(** X5. After [detect_airspace_areas] followed by
    [extract_polygon_vertices], a class is a key of the collection exactly
    when it is one of the colour classes and the cleaned mask of its range
    has a traced component of area strictly greater than 1000. *)
Theorem pipeline_keys_are_classes_with_large_components
    {cv : OpenCV} (color_ranges : option (gmap string (hsv * hsv)))
    (epsilon_factor : Q) (min_vertices : Z) (self self' : detector)
    (image : Image) (airspace_type : string) :
  original_image self = Some image →
  detect_airspace_areas color_ranges self = Ok self' →
  is_Some
    (vertex_data (extract_polygon_vertices epsilon_factor min_vertices self')
       !! airspace_type) ↔
  ∃ lower upper c,
    default default_color_ranges color_ranges !! airspace_type
      = Some (lower, upper) ∧
    c ∈ findContours
          (morphologyEx
             (morphologyEx (inRange (cvtColor_BGR2HSV image) lower upper)
                MORPH_CLOSE)
             MORPH_OPEN) ∧
    (1000 < contourArea c)%Q.
Proof.
  intros Himg Hdet.
  apply detect_inv in Hdet as (image' & Himg' & _ & _ & Hstored).
  rewrite Himg in Himg'. injection Himg' as <-.
  rewrite extract_lookup, Hstored.
  destruct (default default_color_ranges color_ranges !! airspace_type)
    as [[lower upper]|]; simpl.
  - rewrite detect_class_filter. split.
    + intros Hsome.
      destruct (filter_contours _) as [|c l] eqn:E;
        [destruct Hsome; discriminate|].
      assert (Hc : c ∈ filter_contours
                     (findContours
                        (morphologyEx
                           (morphologyEx
                              (inRange (cvtColor_BGR2HSV image) lower upper)
                              MORPH_CLOSE)
                           MORPH_OPEN))) by (rewrite E; left).
      apply elem_of_filter_contours in Hc as [Hin Hgt].
      exists lower, upper, c. auto.
    + intros (lo & up & c & [= <- <-] & Hin & Hgt).
      assert (Hc : c ∈ filter_contours
                     (findContours
                        (morphologyEx
                           (morphologyEx
                              (inRange (cvtColor_BGR2HSV image) lower upper)
                              MORPH_CLOSE)
                           MORPH_OPEN)))
        by (apply elem_of_filter_contours; auto).
      destruct (filter_contours _) as [|c0 l]; [inversion Hc | eauto].
  - split; [intros [? ?]; discriminate|].
    intros (lo & up & c & ? & _); discriminate.
Qed.

Lemma pipeline_keys_are_classes_with_large_components_witness :
  is_Some
    (vertex_data
       (extract_polygon_vertices (cv := Reference.cv) 0.02%Q 3
          {| original_image :=
               Some (Scenario.chart_with [Scenario.bump; Scenario.rect_40x25]);
             airspace_polygons := {[ Scenario.airspace_a := [Scenario.bump] ]};
             vertex_data := ∅ |})
       !! Scenario.airspace_a) ↔
  ∃ lower upper c,
    Scenario.blue_range !! Scenario.airspace_a = Some (lower, upper) ∧
    c ∈ [Scenario.bump; Scenario.rect_40x25] ∧
    (1000 < shoelace_area c)%Q.
Proof.
  apply (pipeline_keys_are_classes_with_large_components (cv := Reference.cv)
           (Some Scenario.blue_range) 0.02%Q 3
           (Scenario.loaded
              (Scenario.chart_with [Scenario.bump; Scenario.rect_40x25]))
           _
           (Scenario.chart_with [Scenario.bump; Scenario.rect_40x25])
           Scenario.airspace_a).
  - reflexivity.
  - reflexivity.
Defined.

(** ** Facts about extrema *)

Lemma fold_Qmin_le_init (l : list Q) (x : Q) : (fold_left Qmin l x <= x)%Q.
Proof.
  revert x. induction l as [|a l IH]; intros x; simpl; [apply Qle_refl|].
  eapply Qle_trans; [apply IH | apply Q.le_min_l].
Qed.

Lemma fold_Qmin_le_elem (l : list Q) (x y : Q) :
  In y l → (fold_left Qmin l x <= y)%Q.
Proof.
  revert x. induction l as [|a l IH]; intros x; simpl; [tauto|].
  intros [<- | Hin]; [|apply IH; exact Hin].
  eapply Qle_trans; [apply fold_Qmin_le_init | apply Q.le_min_r].
Qed.

Lemma fold_Qmin_glb_lt (l : list Q) (x lo : Q) :
  (lo < x)%Q → (∀ y, In y l → (lo < y)%Q) → (lo < fold_left Qmin l x)%Q.
Proof.
  revert x. induction l as [|a l IH]; intros x Hx Hl; simpl; [exact Hx|].
  apply IH.
  - apply Q.min_glb_lt; [exact Hx | apply Hl; left; reflexivity].
  - intros y Hy. apply Hl. right. exact Hy.
Qed.

Lemma fold_Qmax_ge_init (l : list Q) (x : Q) : (x <= fold_left Qmax l x)%Q.
Proof.
  revert x. induction l as [|a l IH]; intros x; simpl; [apply Qle_refl|].
  eapply Qle_trans; [apply Q.le_max_l | apply IH].
Qed.

Lemma fold_Qmax_ge_elem (l : list Q) (x y : Q) :
  In y l → (y <= fold_left Qmax l x)%Q.
Proof.
  revert x. induction l as [|a l IH]; intros x; simpl; [tauto|].
  intros [<- | Hin]; [|apply IH; exact Hin].
  eapply Qle_trans; [apply Q.le_max_r | apply fold_Qmax_ge_init].
Qed.

Lemma fold_min_le_init (l : list nat) (x : nat) :
  (fold_left Nat.min l x <= x)%nat.
Proof.
  revert x. induction l as [|a l IH]; intros x; simpl; [lia|].
  specialize (IH (Nat.min x a)). lia.
Qed.

Lemma fold_min_le_elem (l : list nat) (x y : nat) :
  In y l → (fold_left Nat.min l x <= y)%nat.
Proof.
  revert x. induction l as [|a l IH]; intros x; simpl; [tauto|].
  intros [<- | Hin]; [|apply IH; exact Hin].
  pose proof (fold_min_le_init l (Nat.min x a)). lia.
Qed.

Lemma fold_min_glb (l : list nat) (x lo : nat) :
  (lo <= x)%nat → (∀ y, In y l → (lo <= y)%nat) →
  (lo <= fold_left Nat.min l x)%nat.
Proof.
  revert x. induction l as [|a l IH]; intros x Hx Hl; simpl; [exact Hx|].
  apply IH.
  - specialize (Hl a (or_introl eq_refl)). lia.
  - intros y Hy. apply Hl. right. exact Hy.
Qed.

Lemma fold_max_ge_init (l : list nat) (x : nat) :
  (x <= fold_left Nat.max l x)%nat.
Proof.
  revert x. induction l as [|a l IH]; intros x; simpl; [lia|].
  specialize (IH (Nat.max x a)). lia.
Qed.

Lemma fold_max_ge_elem (l : list nat) (x y : nat) :
  In y l → (y <= fold_left Nat.max l x)%nat.
Proof.
  revert x. induction l as [|a l IH]; intros x; simpl; [tauto|].
  intros [<- | Hin]; [|apply IH; exact Hin].
  pose proof (fold_max_ge_init l (Nat.max x a)). lia.
Qed.

(** A fold with an operation that returns one of its operands returns
    the value of one of the elements. *)
Lemma fold_selects {A B} (f : A → B) (op : B → B → B) (p0 : A) (l : list A) :
  (∀ x y, op x y = x ∨ op x y = y) →
  ∃ p, p ∈ p0 :: l ∧ fold_left op (f <$> l) (f p0) = f p.
Proof.
  intros Hop. revert p0. induction l as [|a l IH]; intros p0.
  - exists p0. split; [left | reflexivity].
  - rewrite fmap_cons. cbn [fold_left].
    destruct (Hop (f p0) (f a)) as [-> | ->].
    + destruct (IH p0) as (p & Hp & ->). exists p. split; [|reflexivity].
      apply elem_of_cons in Hp as [-> | Hp]; [left | right; right; exact Hp].
    + destruct (IH a) as (p & Hp & ->). exists p. split; [|reflexivity].
      right. exact Hp.
Qed.

(** ** Properties of the statistics *)

Lemma class_statistics_cons `{np : NumPy}
    (p : polygon_data) (l : list polygon_data) :
  ∃ entry, class_statistics (p :: l) = Some entry.
Proof. eexists. reflexivity. Qed.

Lemma class_statistics_inv `{np : NumPy} (polygons : list polygon_data)
    (entry : polygon_statistics) :
  class_statistics polygons = Some entry →
  num_polygons entry = length polygons ∧
  np_min (area <$> polygons) = Some (smallest_area entry) ∧
  np_max (area <$> polygons) = Some (max_area entry) ∧
  np_min_int (num_vertices <$> polygons) = Some (smallest_vertices entry) ∧
  np_max_int (num_vertices <$> polygons) = Some (max_vertices entry).
Proof.
  destruct polygons as [|p l]; [discriminate|].
  intros [= <-]. repeat split.
Qed.

Section StatisticsFacts.
Context `{cv : OpenCV} `{np : NumPy}.

Lemma get_polygon_statistics_lookup (self : detector) :
  ∃ stats,
    get_polygon_statistics self = Some stats ∧
    ∀ k, stats !! k =
         match vertex_data self !! k with
         | Some (p :: l) => class_statistics (p :: l)
         | _ => None
         end.
Proof.
  unfold get_polygon_statistics.
  apply (map_fold_weak_ind
           (fun r (m : gmap string (list polygon_data)) =>
              ∃ stats : gmap string polygon_statistics,
                r = Some stats ∧
                ∀ k, stats !! k =
                     match m !! k with
                     | Some (p :: l) => class_statistics (p :: l)
                     | _ => None
                     end)).
  - exists ∅. split; [reflexivity|]. intros k. rewrite !lookup_empty.
    reflexivity.
  - intros i x m r Hi (stats & -> & Hstats). destruct x as [|p l].
    + exists stats. split; [reflexivity|]. intros k.
      destruct (decide (i = k)) as [->|Hne].
      * rewrite lookup_insert_eq, Hstats, Hi. reflexivity.
      * rewrite lookup_insert_ne by exact Hne. apply Hstats.
    + destruct (class_statistics_cons p l) as [entry Hentry].
      exists (<[i := entry]> stats). split.
      * cbv beta iota. rewrite Hentry. reflexivity.
      * intros k. destruct (decide (i = k)) as [->|Hne].
        -- rewrite !lookup_insert_eq. symmetry. exact Hentry.
        -- rewrite !lookup_insert_ne by exact Hne. apply Hstats.
Qed.

End StatisticsFacts.

(** X6. [get_polygon_statistics] never fails, whatever the collection: no
    mean or extremum is taken of an empty list, and the result has an entry
    exactly for the classes that have at least one polygon. *)
Theorem statistics_cover_the_nonempty_classes
    {cv : OpenCV} {np : NumPy} (self : detector) :
  ∃ stats,
    get_polygon_statistics self = Some stats ∧
    ∀ airspace_type,
      is_Some (stats !! airspace_type) ↔
      ∃ p l, vertex_data self !! airspace_type = Some (p :: l).
Proof.
  destruct (get_polygon_statistics_lookup self) as (stats & Hs & Hlook).
  exists stats. split; [exact Hs|]. intros k. rewrite Hlook.
  destruct (vertex_data self !! k) as [[|p l]|]; split.
  - intros [? ?]; discriminate.
  - intros (p & l & ?); discriminate.
  - eauto.
  - intros _. destruct (class_statistics_cons p l) as [entry ->]. eauto.
  - intros [? ?]; discriminate.
  - intros (p & l & ?); discriminate.
Qed.

(** X7. In every entry of the statistics, [num_polygons] is the positive
    number of polygons of the class; ["min_area"] and ["max_area"] are each
    the area of a polygon of the class, and the area of every polygon of
    the class lies between the two; likewise ["min_vertices"] and
    ["max_vertices"] for the vertex counts. *)
Theorem statistics_extrema_bound_the_polygons
    {cv : OpenCV} {np : NumPy} (self : detector)
    (stats : gmap string polygon_statistics) (airspace_type : string)
    (entry : polygon_statistics) :
  get_polygon_statistics self = Some stats →
  stats !! airspace_type = Some entry →
  ∃ polygons,
    vertex_data self !! airspace_type = Some polygons ∧
    num_polygons entry = length polygons ∧
    (0 < num_polygons entry)%nat ∧
    (∀ p, p ∈ polygons →
       (smallest_area entry <= area p)%Q ∧ (area p <= max_area entry)%Q ∧
       (smallest_vertices entry <= num_vertices p)%nat ∧
       (num_vertices p <= max_vertices entry)%nat) ∧
    (∃ p, p ∈ polygons ∧ smallest_area entry = area p) ∧
    (∃ p, p ∈ polygons ∧ max_area entry = area p) ∧
    (∃ p, p ∈ polygons ∧ smallest_vertices entry = num_vertices p) ∧
    (∃ p, p ∈ polygons ∧ max_vertices entry = num_vertices p).
Proof.
  intros Hs Hentry.
  destruct (get_polygon_statistics_lookup self) as (stats' & Hs' & Hlook).
  rewrite Hs in Hs'. injection Hs' as <-. rewrite Hlook in Hentry.
  destruct (vertex_data self !! airspace_type) as [[|p0 l]|];
    try discriminate.
  exists (p0 :: l). split; [reflexivity|].
  apply class_statistics_inv in Hentry as (Hn & Hmin & Hmax & Hvmin & Hvmax).
  injection Hmin as Hmin. injection Hmax as Hmax.
  injection Hvmin as Hvmin. injection Hvmax as Hvmax.
  split; [exact Hn|]. split; [rewrite Hn; simpl; lia|].
  rewrite <- Hmin, <- Hmax, <- Hvmin, <- Hvmax.
  split; [|split; [|split; [|split]]].
  - intros p Hp. apply elem_of_cons in Hp as [->|Hp].
    + split; [apply fold_Qmin_le_init|]. split; [apply fold_Qmax_ge_init|].
      split; [apply fold_min_le_init | apply fold_max_ge_init].
    + assert (Ha : In (area p) (area <$> l))
        by (apply list_elem_of_In, list_elem_of_fmap; eauto).
      assert (Hv : In (num_vertices p) (num_vertices <$> l))
        by (apply list_elem_of_In, list_elem_of_fmap; eauto).
      split; [apply fold_Qmin_le_elem; exact Ha|].
      split; [apply fold_Qmax_ge_elem; exact Ha|].
      split; [apply fold_min_le_elem | apply fold_max_ge_elem]; exact Hv.
  - apply (fold_selects area Qmin); intros x y;
      unfold Qmin, GenericMinMax.gmin; destruct (x ?= y)%Q; auto.
  - apply (fold_selects area Qmax); intros x y;
      unfold Qmax, GenericMinMax.gmax; destruct (x ?= y)%Q; auto.
  - apply (fold_selects num_vertices Nat.min); intros x y;
      destruct (Nat.min_dec x y); auto.
  - apply (fold_selects num_vertices Nat.max); intros x y;
      destruct (Nat.max_dec x y); auto.
Qed.

(** ** Properties of loading *)


(** X9. When the constructor succeeds, both stores of the new detector are
    empty, and its image is missing exactly when no source was given or
    the [original.png] of the preprocessed folder could not be decoded. *)
Theorem constructed_detector_is_empty
    {cv : OpenCV} (fs : file_system)
    (preprocessed_folder image_path : option string) (created : detector) :
  new_detector fs preprocessed_folder image_path = Done created →
  airspace_polygons created = ∅ ∧
  vertex_data created = ∅ ∧
  (original_image created = None ↔
   (truthy preprocessed_folder = false ∧ truthy image_path = false) ∨
   (truthy preprocessed_folder = true ∧
    imread fs (original_path (default ""%string preprocessed_folder)) = None)).
Proof.
  unfold new_detector.
  destruct (truthy preprocessed_folder) eqn:Hpf.
  - unfold _load_preprocessed_data.
    destruct (path_exists fs _); simpl; [|discriminate].
    destruct (path_exists fs _); simpl; [|discriminate].
    intros [= <-]. simpl. split; [reflexivity|]. split; [reflexivity|].
    split; [auto|]. intros [[? _] | [_ ?]]; [discriminate | assumption].
  - destruct (truthy image_path) eqn:Hip.
    + unfold _load_original_image.
      destruct (path_exists fs _); simpl; [|discriminate].
      destruct (imread fs _) as [image|]; [|discriminate].
      intros [= <-]. simpl. split; [reflexivity|]. split; [reflexivity|].
      split; [discriminate|]. intros [[_ ?] | [? _]]; discriminate.
    + intros [= <-]. simpl. split; [reflexivity|]. split; [reflexivity|].
      split; auto.
Qed.

Section LoadingFacts.
Context `{cv : OpenCV}.

Lemma load_and_detect_inv (fs : file_system)
    (image_path preprocessed_folder : option string) (s : superimposer) :
  _load_and_detect fs image_path preprocessed_folder = Done s →
  ∃ created detected,
    original_image created = Some (superimposer_image s) ∧
    detect_airspace_areas None created = Ok detected ∧
    vertex_detector s = extract_polygon_vertices 0.02 3 detected ∧
    superimposer_vertex_data s = vertex_data (vertex_detector s).
Proof.
  unfold _load_and_detect.
  set (constructed := if truthy preprocessed_folder then _ else _).
  destruct constructed as [created|e]; [|discriminate].
  destruct (original_image created) as [image|] eqn:Himg; [|discriminate].
  destruct (detect_airspace_areas None created) as [detected|e] eqn:Hdet;
    [|discriminate].
  intros [= <-]. exists created, detected. simpl. auto.
Qed.

End LoadingFacts.

(** X10. [PolygonSuperimposer._load_and_detect] never fails inside the
    detector: a missing image is turned into [ValueError] before detection
    starts, as is the absence of both sources.  When it succeeds, the
    image is loaded, the collection it keeps is the detector's, its keys
    are among the five default classes, and every polygon in it has at
    least 3 vertices and an area above 1000. *)
Theorem load_and_detect_checks_the_image_first
    {cv : OpenCV} (fs : file_system)
    (image_path preprocessed_folder : option string) :
  (∀ e, _load_and_detect fs image_path preprocessed_folder
        ≠ Failed (DetectFailed e)) ∧
  (truthy preprocessed_folder = false → truthy image_path = false →
   _load_and_detect fs image_path preprocessed_folder
   = Failed (LoadFailed ValueError)) ∧
  (∀ s, _load_and_detect fs image_path preprocessed_folder = Done s →
     original_image (vertex_detector s) = Some (superimposer_image s) ∧
     superimposer_vertex_data s = vertex_data (vertex_detector s) ∧
     ∀ airspace_type polygons,
       superimposer_vertex_data s !! airspace_type = Some polygons →
       is_Some (default_color_ranges !! airspace_type) ∧
       ∀ p, p ∈ polygons →
            (3 <= num_vertices p)%nat ∧ (1000 < area p)%Q).
Proof.
  split; [|split].
  - intros e. unfold _load_and_detect.
    assert (Hdetect : ∀ created : detector,
              match original_image created with
              | None => Failed (LoadFailed ValueError)
              | Some image =>
                  match detect_airspace_areas None created with
                  | Raise e0 => Failed (DetectFailed e0)
                  | Ok detected =>
                      Done
                        {| superimposer_image := image;
                           vertex_detector :=
                             extract_polygon_vertices 0.02 3 detected;
                           superimposer_vertex_data :=
                             vertex_data
                               (extract_polygon_vertices 0.02 3 detected) |}
                  end
              end ≠ Failed (DetectFailed e)).
    { intros created.
      destruct (original_image created) as [image|] eqn:Himg; [|discriminate].
      unfold detect_airspace_areas. rewrite Himg. discriminate. }
    destruct (truthy preprocessed_folder).
    + destruct (new_detector fs preprocessed_folder None);
        [apply Hdetect | discriminate].
    + destruct (truthy image_path); [|discriminate].
      destruct (new_detector fs None image_path);
        [apply Hdetect | discriminate].
  - intros Hpf Hip. unfold _load_and_detect. rewrite Hpf, Hip. reflexivity.
  - intros s Hs.
    apply load_and_detect_inv in Hs as (created & detected & Himg & Hdet & Hvd & Hdata).
    pose proof Hdet as Hinv.
    apply detect_inv in Hinv as (image & Himg' & Himg'' & _ & Hstored).
    rewrite Himg in Himg'. injection Himg' as <-.
    split; [rewrite Hvd; exact Himg''|]. split; [exact Hdata|].
    intros k polygons Hk. rewrite Hdata, Hvd in Hk.
    pose proof Hk as Hk'. rewrite extract_lookup, Hstored in Hk'.
    simpl in Hk'. split.
    + destruct (default_color_ranges !! k); [eauto | discriminate].
    + intros p Hp. apply list_elem_of_lookup in Hp as [j Hj].
      destruct (default_color_ranges !! k) as [[lower upper]|];
        simpl in Hk'; [|discriminate].
      destruct (detect_class _ lower upper) as [|c0 l] eqn:Hcls;
        [discriminate|].
      injection Hk' as <-.
      apply extract_polygons_origin in Hj as (i & c & Hi & Hacc).
      apply accepted_Some in Hacc as [-> Hlen].
      rewrite num_vertices_make, area_make. split; [lia|].
      assert (Hin : c ∈ detect_class (cvtColor_BGR2HSV (superimposer_image s))
                          lower upper).
      { rewrite Hcls. apply list_elem_of_lookup. eauto. }
      rewrite detect_class_filter in Hin.
      apply elem_of_filter_contours in Hin as [_ Hgt]. exact Hgt.
Qed.

(** ** Properties of cropping *)







(** ** Further properties of the centroid *)

Lemma fold_add_bounds (lo hi : Z) (l : list Z) (acc : Z) :
  (∀ x, In x l → lo <= x <= hi) →
  acc + Z.of_nat (length l) * lo <= fold_left Z.add l acc
  <= acc + Z.of_nat (length l) * hi.
Proof.
  revert acc. induction l as [|a l IH]; intros acc Hl.
  - simpl. lia.
  - cbn [fold_left length]. rewrite Nat2Z.inj_succ.
    specialize (IH (acc + a) (fun x Hx => Hl x (or_intror Hx))).
    specialize (Hl a (or_introl eq_refl)). nia.
Qed.

Lemma quotient_between (lo hi total : Z) (n : nat) :
  (0 < n)%nat →
  Z.of_nat n * lo <= total <= Z.of_nat n * hi →
  (inject_Z lo <= inject_Z total / inject_Z (Z.of_nat n))%Q ∧
  (inject_Z total / inject_Z (Z.of_nat n) <= inject_Z hi)%Q.
Proof.
  intros Hn [Hlo Hhi].
  assert (Hnq : (0 < inject_Z (Z.of_nat n))%Q)
    by (rewrite <- (Zlt_Qlt 0); lia).
  split.
  - apply Qle_shift_div_l; [exact Hnq|].
    rewrite <- inject_Z_mult, <- Zle_Qle. lia.
  - apply Qle_shift_div_r; [exact Hnq|].
    rewrite <- inject_Z_mult, <- Zle_Qle. lia.
Qed.

(** X14. The centroid of a non-empty vertex list lies in every upright box
    that contains all the vertices, in particular in the bounding box of
    the vertices themselves. *)
Theorem centroid_lies_within_the_vertex_extent
    (v : Z * Z) (vs : list (Z * Z)) (xmin xmax ymin ymax : Z) :
  (∀ p, p ∈ v :: vs → xmin <= p.1 <= xmax ∧ ymin <= p.2 <= ymax) →
  (inject_Z xmin <= fst (_calculate_centroid (v :: vs)))%Q ∧
  (fst (_calculate_centroid (v :: vs)) <= inject_Z xmax)%Q ∧
  (inject_Z ymin <= snd (_calculate_centroid (v :: vs)))%Q ∧
  (snd (_calculate_centroid (v :: vs)) <= inject_Z ymax)%Q.
Proof.
  intros Hbox. unfold _calculate_centroid. cbv zeta. cbn [fst snd].
  assert (Hx : ∀ x, In x (map fst (v :: vs)) → xmin <= x <= xmax).
  { intros x Hx. apply in_map_iff in Hx as (p & <- & Hp).
    apply list_elem_of_In in Hp. apply (Hbox p Hp). }
  assert (Hy : ∀ y, In y (map snd (v :: vs)) → ymin <= y <= ymax).
  { intros y Hy. apply in_map_iff in Hy as (p & <- & Hp).
    apply list_elem_of_In in Hp. apply (Hbox p Hp). }
  pose proof (fold_add_bounds xmin xmax _ 0 Hx) as Sx.
  pose proof (fold_add_bounds ymin ymax _ 0 Hy) as Sy.
  destruct (quotient_between xmin xmax (py_sum (map fst (v :: vs)))
              (length (map fst (v :: vs)))) as [? ?];
    [simpl; lia | unfold py_sum; lia |].
  destruct (quotient_between ymin ymax (py_sum (map snd (v :: vs)))
              (length (map snd (v :: vs)))) as [? ?];
    [simpl; lia | unfold py_sum; lia |].
  auto.
Qed.

Lemma centroid_lies_within_the_vertex_extent_witness :
  (inject_Z 0 <= fst (_calculate_centroid Scenario.rectangle_with_midpoint))%Q ∧
  (fst (_calculate_centroid Scenario.rectangle_with_midpoint) <= inject_Z 4)%Q ∧
  (inject_Z 0 <= snd (_calculate_centroid Scenario.rectangle_with_midpoint))%Q ∧
  (snd (_calculate_centroid Scenario.rectangle_with_midpoint) <= inject_Z 2)%Q.
Proof.
  apply (centroid_lies_within_the_vertex_extent (0, 0)
           [(4, 0); (4, 2); (0, 2); (0, 1)] 0 4 0 2).
  intros p Hp.
  repeat (apply elem_of_cons in Hp as [-> | Hp]; [simpl; lia|]).
  inversion Hp.
Defined.

(** ** Properties of the counts *)

Lemma fold_left_length_sum {A} (ls : list (list A)) (acc : nat) :
  fold_left (fun total l => (total + length l)%nat) ls acc =
  (acc + sum_list_with length ls)%nat.
Proof.
  revert acc. induction ls as [|l ls IH]; intros acc; simpl; [lia|].
  rewrite IH. lia.
Qed.

Lemma length_omap_le {A B} (f : A → option B) (l : list A) :
  (length (omap f l) <= length l)%nat.
Proof.
  induction l as [|x l IH]; csimpl; [lia|].
  destruct (f x); csimpl; lia.
Qed.

Lemma sum_omap_le {A B} (g : list A → option (list B))
    (m : gmap string (list A)) :
  (∀ x y, g x = Some y → (length y <= length x)%nat) →
  (sum_list_with length (snd <$> map_to_list (omap g m))
   <= sum_list_with length (snd <$> map_to_list m))%nat.
Proof.
  intros Hg. induction m as [|i x m Hi IH] using map_ind.
  - rewrite omap_empty, !map_to_list_empty. simpl. lia.
  - rewrite (map_to_list_insert m i x Hi). rewrite omap_insert.
    assert (Hio : omap g m !! i = None) by (rewrite lookup_omap, Hi; reflexivity).
    destruct (g x) as [y|] eqn:Hgx.
    + rewrite (map_to_list_insert (omap g m) i y Hio). csimpl.
      specialize (Hg x y Hgx). lia.
    + rewrite (delete_id _ _ Hio). csimpl. lia.
Qed.

Lemma size_omap_le {A B} (g : A → option B) (m : gmap string A) :
  (size (omap g m) <= size m)%nat.
Proof.
  induction m as [|i x m Hi IH] using map_ind.
  - rewrite omap_empty, !map_size_empty. lia.
  - rewrite (map_size_insert_None _ _ _ Hi), omap_insert.
    assert (Hio : omap g m !! i = None) by (rewrite lookup_omap, Hi; reflexivity).
    destruct (g x) as [y|].
    + rewrite (map_size_insert_None _ _ _ Hio). lia.
    + rewrite (delete_id _ _ Hio). lia.
Qed.

Section CountFacts.
Context `{cv : OpenCV}.

Lemma length_extract_polygons ef mv (contours : list contour) :
  (length (extract_polygons ef mv contours) <= length contours)%nat.
Proof.
  rewrite extract_polygons_omap.
  etransitivity; [apply length_omap_le|].
  unfold enumerate. rewrite length_enumerate_from. lia.
Qed.

Lemma extract_vertex_data_omap ef mv (self : detector) :
  vertex_data (extract_polygon_vertices ef mv self) =
  omap (fun contours : list contour =>
          match contours with
          | [] => None
          | _ => Some (extract_polygons ef mv contours)
          end)
    (airspace_polygons self).
Proof.
  apply map_eq. intros k. rewrite extract_lookup, lookup_omap.
  destruct (airspace_polygons self !! k) as [[|c l]|]; reflexivity.
Qed.

End CountFacts.

(** X15. After [extract_polygon_vertices], the [total_polygons] written to
    the metadata of [save_vertex_data] is at most the number of stored
    contours, and [total_airspace_types] is at most the number of classes
    of the contour store. *)
Theorem totals_are_bounded_by_the_contour_store
    {cv : OpenCV} (epsilon_factor : Q) (min_vertices : Z) (self : detector) :
  (total_polygons (extract_polygon_vertices epsilon_factor min_vertices self)
   <= total_contours self)%nat ∧
  (total_airspace_types
     (extract_polygon_vertices epsilon_factor min_vertices self)
   <= size (airspace_polygons self))%nat.
Proof.
  unfold total_polygons, total_contours, total_airspace_types.
  rewrite !fold_left_length_sum, extract_vertex_data_omap. split.
  - simpl. apply sum_omap_le. intros [|c l] y; [discriminate|].
    intros [= <-]. apply length_extract_polygons.
  - apply size_omap_le.
Qed.

(** ** Witnesses and the driver of [get_vertex_coordinates.py] *)

Lemma statistics_extrema_bound_the_polygons_witness :
  ∃ polygons,
    vertex_data Cases.bump_and_square !! Scenario.airspace_a = Some polygons ∧
    num_polygons Cases.bump_and_square_entry = length polygons ∧
    (0 < num_polygons Cases.bump_and_square_entry)%nat ∧
    (∀ p, p ∈ polygons →
       (smallest_area Cases.bump_and_square_entry <= area p)%Q ∧
       (area p <= max_area Cases.bump_and_square_entry)%Q ∧
       (smallest_vertices Cases.bump_and_square_entry <= num_vertices p)%nat ∧
       (num_vertices p <= max_vertices Cases.bump_and_square_entry)%nat) ∧
    (∃ p, p ∈ polygons ∧ smallest_area Cases.bump_and_square_entry = area p) ∧
    (∃ p, p ∈ polygons ∧ max_area Cases.bump_and_square_entry = area p) ∧
    (∃ p, p ∈ polygons ∧
          smallest_vertices Cases.bump_and_square_entry = num_vertices p) ∧
    (∃ p, p ∈ polygons ∧
          max_vertices Cases.bump_and_square_entry = num_vertices p).
Proof.
  apply (statistics_extrema_bound_the_polygons (cv := Reference.cv)
           (np := Cases.np) Cases.bump_and_square
           {[ Scenario.airspace_a := Cases.bump_and_square_entry ]}
           Scenario.airspace_a Cases.bump_and_square_entry).
  - vm_compute. reflexivity.
  - vm_compute. reflexivity.
Defined.


Lemma constructed_detector_is_empty_witness :
  airspace_polygons
    (Scenario.loaded (Scenario.chart_with [Scenario.bump])) = ∅ ∧
  vertex_data (Scenario.loaded (Scenario.chart_with [Scenario.bump])) = ∅ ∧
  (original_image (Scenario.loaded (Scenario.chart_with [Scenario.bump]))
   = None ↔
   (truthy None = false ∧ truthy (Some "chart.png"%string) = false) ∨
   (truthy None = true ∧
    imread (Cases.disk_with (Scenario.chart_with [Scenario.bump]))
      (original_path (default ""%string None)) = None)).
Proof.
  apply (constructed_detector_is_empty (cv := Reference.cv)
           (Cases.disk_with (Scenario.chart_with [Scenario.bump]))
           None (Some "chart.png"%string)).
  reflexivity.
Defined.

Lemma load_and_detect_checks_the_image_first_witness :
  ∃ s,
    _load_and_detect (cv := Reference.cv)
      (Cases.disk_with (Scenario.chart_with [Scenario.bump]))
      (Some "chart.png"%string) None = Done s ∧
    original_image (vertex_detector s) = Some (superimposer_image s) ∧
    superimposer_vertex_data s = vertex_data (vertex_detector s) ∧
    ∀ airspace_type polygons,
      superimposer_vertex_data s !! airspace_type = Some polygons →
      is_Some (default_color_ranges !! airspace_type) ∧
      ∀ p, p ∈ polygons →
           (3 <= num_vertices p)%nat ∧ (1000 < area p)%Q.
Proof.
  eexists. split; [reflexivity|].
  apply (proj2 (proj2 (load_and_detect_checks_the_image_first
                         (cv := Reference.cv)
                         (Cases.disk_with (Scenario.chart_with [Scenario.bump]))
                         (Some "chart.png"%string) None))).
  reflexivity.
Defined.

(** X16. [get_coordinates_from_image] returns the empty list whenever the
    file is missing or cannot be decoded, so that a failure cannot be told
    from a chart without detections; and every tuple it returns names one
    of the five default classes, a polygon id of at least 1 and a vertex
    index of at least 1. *)
Theorem coordinates_of_an_unreadable_image_are_empty
    {cv : OpenCV} (fs : file_system) (image_path : string) :
  (path_exists fs image_path = false ∨ imread fs image_path = None →
   get_coordinates_from_image fs image_path = []) ∧
  ∀ airspace_type id vertex_index x y,
    (airspace_type, id, vertex_index, x, y)
      ∈ get_coordinates_from_image fs image_path →
    is_Some (default_color_ranges !! airspace_type) ∧
    (1 <= id)%nat ∧ (1 <= vertex_index)%nat.
Proof.
  unfold get_coordinates_from_image, new_detector.
  change (truthy None) with false. cbv iota. split.
  - intros Hbad. destruct (truthy (Some image_path)); [|reflexivity].
    unfold _load_original_image. simpl default.
    destruct Hbad as [-> | Hread]; [reflexivity|].
    destruct (path_exists fs image_path); [|reflexivity].
    rewrite Hread. reflexivity.
  - intros k id vi x y.
    destruct (truthy (Some image_path));
      [|intros Hin; inversion Hin].
    destruct (_load_original_image fs _) as [image|e];
      [|intros Hin; inversion Hin].
    cbv beta iota zeta.
    set (created := {| original_image := image;
                       airspace_polygons := ∅;
                       vertex_data := ∅ |}).
    destruct (detect_airspace_areas None created) as [detected|e] eqn:Hdet;
      [|intros Hin; inversion Hin].
    intros Hin.
    apply coordinates_list_origin
      in Hin as (polygons & p & i & Hk & Hp & <- & -> & _).
    apply detect_inv in Hdet as (img & _ & _ & _ & Hstored).
    rewrite extract_lookup, Hstored in Hk. simpl in Hk.
    destruct (default_color_ranges !! k) as [[lower upper]|];
      simpl in Hk; [|discriminate].
    split; [eauto|]. split; [|lia].
    destruct (detect_class _ lower upper) as [|c0 l]; [discriminate|].
    injection Hk as <-.
    apply list_elem_of_lookup in Hp as [j Hj].
    apply extract_polygons_origin in Hj as (n & c & _ & Hacc).
    apply accepted_Some in Hacc as [-> _].
    rewrite polygon_id_make. lia.
Qed.

Lemma coordinates_of_an_unreadable_image_are_empty_witness :
  get_coordinates_from_image (cv := Reference.cv) Cases.unreadable_disk
    "chart.png" = [].
Proof.
  apply (proj1 (coordinates_of_an_unreadable_image_are_empty
                  (cv := Reference.cv) Cases.unreadable_disk "chart.png")).
  right. reflexivity.
Defined.

(** ** Clipping, and what detection leaves alone *)






(** X18. [detect_airspace_areas] fails exactly when no image is loaded.
    When it succeeds it leaves the image and the polygon records as they
    were, so records of an earlier extraction stay in place; the new
    contour store has an entry for every colour class and for nothing
    else, and does not depend on the store it replaces. *)
Theorem detection_replaces_only_the_contour_store
    {cv : OpenCV} (color_ranges : option (gmap string (hsv * hsv)))
    (self : detector) :
  (original_image self = None ↔
   detect_airspace_areas color_ranges self = Raise CvError) ∧
  ∀ self',
    detect_airspace_areas color_ranges self = Ok self' →
    original_image self' = original_image self ∧
    vertex_data self' = vertex_data self ∧
    (∀ airspace_type,
       is_Some (airspace_polygons self' !! airspace_type) ↔
       is_Some (default default_color_ranges color_ranges !! airspace_type)) ∧
    ∀ stale,
      detect_airspace_areas color_ranges
        {| original_image := original_image self;
           airspace_polygons := stale;
           vertex_data := vertex_data self |} = Ok self'.
Proof.
  split.
  - unfold detect_airspace_areas.
    destruct (original_image self); split; try discriminate; reflexivity.
  - intros self' Hdet. pose proof Hdet as Hinv.
    apply detect_inv in Hinv as (image & Himg & Himg' & Hvd & Hstored).
    split; [congruence|]. split; [exact Hvd|]. split.
    + intros k. rewrite Hstored.
      destruct (default default_color_ranges color_ranges !! k); simpl;
        split; intros [? ?]; try discriminate; eauto.
    + intros stale. rewrite <- Hdet. unfold detect_airspace_areas.
      cbn [original_image vertex_data]. reflexivity.
Qed.

Lemma detection_replaces_only_the_contour_store_witness :
  ∃ self',
    detect_airspace_areas (cv := Reference.cv) (Some Scenario.blue_range)
      (Scenario.loaded (Scenario.chart_with [Scenario.bump])) = Ok self' ∧
    original_image self'
      = original_image (Scenario.loaded (Scenario.chart_with [Scenario.bump])) ∧
    vertex_data self'
      = vertex_data (Scenario.loaded (Scenario.chart_with [Scenario.bump])) ∧
    (∀ airspace_type,
       is_Some (airspace_polygons self' !! airspace_type) ↔
       is_Some (default default_color_ranges (Some Scenario.blue_range)
                  !! airspace_type)) ∧
    ∀ stale,
      detect_airspace_areas (cv := Reference.cv) (Some Scenario.blue_range)
        {| original_image :=
             original_image
               (Scenario.loaded (Scenario.chart_with [Scenario.bump]));
           airspace_polygons := stale;
           vertex_data :=
             vertex_data
               (Scenario.loaded (Scenario.chart_with [Scenario.bump])) |}
      = Ok self'.
Proof.
  eexists. split; [reflexivity|].
  apply (proj2 (detection_replaces_only_the_contour_store
                  (cv := Reference.cv) (Some Scenario.blue_range)
                  (Scenario.loaded (Scenario.chart_with [Scenario.bump])))).
  reflexivity.
Defined.

(** ** Properties of the image names *)

Lemma append_cons (a : Ascii.ascii) (s t : string) :
  (String a s +:+ t)%string = String a (s +:+ t)%string.
Proof. reflexivity. Qed.

Lemma append_inj_l (s t1 t2 : string) :
  (s +:+ t1)%string = (s +:+ t2)%string → t1 = t2.
Proof.
  induction s as [|a s IH]; [intros H; exact H|].
  rewrite !append_cons. intros [= H]. apply IH. exact H.
Qed.

Lemma length_append (s t : string) :
  String.length (s +:+ t)%string = (String.length s + String.length t)%nat.
Proof.
  induction s as [|a s IH]; [reflexivity|].
  rewrite append_cons. simpl. rewrite IH. reflexivity.
Qed.

Lemma append_inj_r (s1 s2 t : string) :
  (s1 +:+ t)%string = (s2 +:+ t)%string → s1 = s2.
Proof.
  revert s2. induction s1 as [|a s1 IH]; intros [|b s2] H.
  - reflexivity.
  - apply (f_equal String.length) in H.
    rewrite !length_append in H. simpl in H. lia.
  - apply (f_equal String.length) in H.
    rewrite !length_append in H. simpl in H. lia.
  - rewrite !append_cons in H. injection H as -> H. f_equal. apply IH, H.
Qed.

Lemma of_uint_zero_pad (width : nat) (d : Decimal.uint) :
  Nat.of_uint (zero_pad width d) = Nat.of_uint d.
Proof.
  unfold zero_pad. induction (width - Decimal.nb_digits d)%nat as [|k IH];
    [reflexivity|].
  simpl Nat.iter. rewrite <- IH. reflexivity.
Qed.

Lemma format_03d_inj (n m : nat) : format_03d n = format_03d m → n = m.
Proof.
  unfold format_03d. intros H.
  apply (f_equal NilEmpty.uint_of_string) in H.
  rewrite !NilEmpty.usu in H. injection H as H.
  apply (f_equal Nat.of_uint) in H.
  rewrite !of_uint_zero_pad, !Unsigned.of_to in H. exact H.
Qed.

Lemma individual_image_name_inj (k : string) (p q : polygon_data) :
  individual_image_name k p = individual_image_name k q →
  polygon_id p = polygon_id q.
Proof.
  unfold individual_image_name. intros H.
  apply append_inj_l, append_inj_l, append_inj_r in H.
  apply format_03d_inj. exact H.
Qed.

Lemma create_individual_polygon_images_bind
    (vertex_data : gmap string (list polygon_data)) :
  create_individual_polygon_images vertex_data =
  (map_to_list vertex_data ≫=
     (fun kp => (fun p => (kp.1, individual_image_name kp.1 p)) <$> kp.2),
   length
     (map_to_list vertex_data ≫=
        (fun kp => (fun p => (kp.1, individual_image_name kp.1 p)) <$> kp.2))).
Proof.
  unfold create_individual_polygon_images.
  enough (Hacc : ∀ (l : list (string * list polygon_data)) written,
            fold_left
              (fun state '(airspace_type, polygons) =>
                 match polygons with
                 | [] => state
                 | _ =>
                     fold_left
                       (fun '(written, polygon_count) polygon =>
                          (written
                           ++ [(airspace_type,
                                individual_image_name airspace_type polygon)],
                           (polygon_count + 1)%nat))
                       polygons state
                 end)
              l (written, length written)
            = (written
               ++ (l ≫= (fun kp =>
                           (fun p => (kp.1, individual_image_name kp.1 p))
                             <$> kp.2)),
               length
                 (written
                  ++ (l ≫= (fun kp =>
                              (fun p => (kp.1, individual_image_name kp.1 p))
                                <$> kp.2)))))
    by apply (Hacc _ []).
  assert (Hin : ∀ k (polygons : list polygon_data) written,
            fold_left
              (fun '(written, polygon_count) polygon =>
                 (written ++ [(k, individual_image_name k polygon)],
                  (polygon_count + 1)%nat))
              polygons (written, length written)
            = (written
               ++ ((fun p => (k, individual_image_name k p)) <$> polygons),
               length
                 (written
                  ++ ((fun p => (k, individual_image_name k p))
                        <$> polygons)))).
  { intros k polygons. induction polygons as [|p l IH]; intros written.
    - simpl. rewrite app_nil_r. reflexivity.
    - cbn [fold_left].
      replace (length written + 1)%nat
        with (length (written ++ [(k, individual_image_name k p)]))
        by (rewrite length_app; reflexivity).
      rewrite IH, fmap_cons, <- app_assoc. reflexivity. }
  induction l as [|[k polygons] l IH]; intros written.
  - simpl. rewrite app_nil_r. reflexivity.
  - cbn [fold_left]. rewrite bind_cons. cbn [fst snd].
    destruct polygons as [|p polygons'].
    + apply IH.
    + rewrite Hin, IH, <- app_assoc. reflexivity.
Qed.

(** X19. For the collection built by [extract_polygon_vertices],
    [create_individual_polygon_images] never writes two polygons to the
    same file of the same class folder, and its [polygon_count] is the
    number of files written, which is [total_polygons]. *)
Theorem individual_images_do_not_overwrite_each_other
    {cv : OpenCV} (epsilon_factor : Q) (min_vertices : Z) (self : detector) :
  let extracted := extract_polygon_vertices epsilon_factor min_vertices self in
  NoDup (create_individual_polygon_images (vertex_data extracted)).1 ∧
  (create_individual_polygon_images (vertex_data extracted)).2
    = length (create_individual_polygon_images (vertex_data extracted)).1 ∧
  (create_individual_polygon_images (vertex_data extracted)).2
    = total_polygons extracted.
Proof.
  intros extracted. rewrite create_individual_polygon_images_bind.
  cbn [fst snd]. split; [|split; [reflexivity|]].
  - apply NoDup_bind.
    + intros [k1 ps1] [k2 ps2] [k name] H1 H2 Hy1 Hy2. cbn [fst snd] in *.
      apply list_elem_of_fmap in Hy1 as (p1 & [= -> _] & _).
      apply list_elem_of_fmap in Hy2 as (p2 & [= -> _] & _).
      apply elem_of_map_to_list in H1. apply elem_of_map_to_list in H2.
      congruence.
    + intros [k polygons] Hk. cbn [fst snd].
      apply elem_of_map_to_list in Hk. unfold extracted in Hk.
      rewrite extract_lookup in Hk.
      destruct (airspace_polygons self !! k) as [[|c l]|]; try discriminate.
      injection Hk as <-.
      pose proof (extract_ids_sorted epsilon_factor min_vertices (c :: l) 0)
        as [Hsorted _].
      rewrite extract_polygons_omap. unfold enumerate.
      set (ps := omap _ _) in *. clearbody ps.
      induction ps as [|p ps IH]; [constructor|].
      rewrite fmap_cons in Hsorted.
      apply StronglySorted_inv in Hsorted as [Hs Hall].
      rewrite fmap_cons. constructor; [|apply IH; exact Hs].
      intros Hin. apply list_elem_of_fmap in Hin as (q & [= Hname] & Hq).
      apply individual_image_name_inj in Hname.
      rewrite Forall_forall in Hall.
      assert (Hlt : (polygon_id p < polygon_id q)%nat).
      { apply Hall. apply list_elem_of_fmap. eauto. }
      lia.
    + apply NoDup_map_to_list.
  - unfold total_polygons. rewrite fold_left_length_sum.
    generalize (map_to_list (vertex_data extracted)). intros l.
    induction l as [|[k ps] l IH]; [reflexivity|].
    rewrite bind_cons, length_app, IH, length_fmap. csimpl. lia.
Qed.
